(** * Theme resolver per day: a shallow embedding of [src/resolver.ts]

    The development follows the source file top-down: the JavaScript
    [Date] operations the resolver relies on, the rule data model, the
    holiday calculator, the rule evaluator, the duration estimator and
    finally the resolution engine, followed by the properties proved
    about them.

    Modelling conventions.
    - A [Date] is its time value in milliseconds, read in local time.
      The local offset is taken to be constant (no daylight-saving
      transitions), so comparing two dates compares these values and the
      calendar fields are functions of the value alone.  Only valid
      dates are modelled.
    - JSON numbers of the catalog ([start], [end], [month], [weekday],
      [n], [duration]) are integers, modelled in [Z].
    - Strings are [string]; [===] and the relational operators on
      strings are [String.eqb] and the lexicographic order on character
      codes.
    - The embedded catalog [themeRules.json] is a parameter of every
      function that reads it. *)

From Stdlib Require Import ZArith List Bool Lia String Ascii Sorted Permutation.
Import ListNotations.

Local Open Scope Z_scope.

(** ** JavaScript dates *)

Module JsDate.

Definition msPerDay : Z := 86400000.

(** Time value of a date, in milliseconds of local time. *)
Record Date : Type := mkDate { timeValue : Z }.

Definition Day (t : Z) : Z := t / msPerDay.
Definition TimeWithinDay (t : Z) : Z := t mod msPerDay.

(** Civil (proleptic Gregorian) date of a day number counted from
    1970-01-01: year, month 1..12, day of month 1..31. *)
Definition civil_from_days (n : Z) : Z * Z * Z :=
  let z := n + 719468 in
  let era := z / 146097 in
  let doe := z mod 146097 in
  let yoe := (doe - doe / 1460 + doe / 36524 - doe / 146096) / 365 in
  let doy := doe - (365 * yoe + yoe / 4 - yoe / 100) in
  let mp := (5 * doy + 2) / 153 in
  let d := doy - (153 * mp + 2) / 5 + 1 in
  let m := if mp <? 10 then mp + 3 else mp - 9 in
  let y := yoe + era * 400 in
  (if m <=? 2 then y + 1 else y, m, d).

(** Day number of a civil date; [d] may lie outside the month, the
    result then moves by as many days. *)
Definition days_from_civil (y m d : Z) : Z :=
  let y' := if m <=? 2 then y - 1 else y in
  let era := y' / 400 in
  let yoe := y' mod 400 in
  let mp := if 2 <? m then m - 3 else m + 9 in
  let doy := (153 * mp + 2) / 5 + d - 1 in
  let doe := yoe * 365 + yoe / 4 - yoe / 100 + doy in
  era * 146097 + doe - 719468.

Definition YearFromTime (t : Z) : Z :=
  let '(y, _, _) := civil_from_days (Day t) in y.
(** Month number 0..11. *)
Definition MonthFromTime (t : Z) : Z :=
  let '(_, m, _) := civil_from_days (Day t) in m - 1.
Definition DateFromTime (t : Z) : Z :=
  let '(_, _, d) := civil_from_days (Day t) in d.
(** 0 is Sunday; 1970-01-01 was a Thursday. *)
Definition WeekDay (t : Z) : Z := (Day t + 4) mod 7.

(** [MakeDay]: months outside 0..11 carry into the year, the day of the
    month is added as a plain offset. *)
Definition MakeDay (year month date : Z) : Z :=
  let ym := year + month / 12 in
  let mn := month mod 12 in
  days_from_civil ym (mn + 1) 1 + date - 1.

Definition MakeDate (day time : Z) : Z := day * msPerDay + time.

(** [new Date(year, monthIndex, day)]: local midnight of that day; a
    year in 0..99 stands for 1900 + year. *)
Definition newDate (year monthIndex day : Z) : Date :=
  let yr := if (0 <=? year) && (year <=? 99) then 1900 + year else year in
  mkDate (MakeDate (MakeDay yr monthIndex day) 0).

(** [new Date(y, m, d, h, min)], used to build inputs. *)
Definition newDateTime (year monthIndex day hours minutes : Z) : Date :=
  mkDate (timeValue (newDate year monthIndex day)
          + hours * 3600000 + minutes * 60000).

Definition getFullYear (d : Date) : Z := YearFromTime (timeValue d).
Definition getMonth (d : Date) : Z := MonthFromTime (timeValue d).
Definition getDate (d : Date) : Z := DateFromTime (timeValue d).
Definition getDay (d : Date) : Z := WeekDay (timeValue d).
Definition getTime (d : Date) : Z := timeValue d.

(** [d.setDate(dt)] keeps the year, the month and the time of day. *)
Definition setDate (d : Date) (dt : Z) : Date :=
  let t := timeValue d in
  mkDate (MakeDate (MakeDay (YearFromTime t) (MonthFromTime t) dt)
                   (TimeWithinDay t)).

(** [d.setFullYear(y)] keeps the month, the day and the time of day. *)
Definition setFullYear (d : Date) (y : Z) : Date :=
  let t := timeValue d in
  mkDate (MakeDate (MakeDay y (MonthFromTime t) (DateFromTime t))
                   (TimeWithinDay t)).

(** Relational operators on dates compare time values. *)
Definition geb (a b : Date) : bool := timeValue b <=? timeValue a.
Definition leb (a b : Date) : bool := timeValue a <=? timeValue b.
Definition ltb (a b : Date) : bool := timeValue a <? timeValue b.

(** [toDateString()] prints the weekday, the month, the day and the
    year; the four fields stand for the printed text, which determines
    them. *)
Definition toDateString (d : Date) : Z * Z * Z * Z :=
  (getDay d, getMonth d, getDate d, getFullYear d).

Definition dateString_eqb (a b : Z * Z * Z * Z) : bool :=
  let '(w1, m1, d1, y1) := a in
  let '(w2, m2, d2, y2) := b in
  (w1 =? w2) && (m1 =? m2) && (d1 =? d2) && (y1 =? y2).

(** Day number of a date and the test of being at local midnight. *)
Definition dayNumber (d : Date) : Z := Day (timeValue d).
Definition atMidnight (d : Date) : Prop := TimeWithinDay (timeValue d) = 0.

End JsDate.

Import JsDate.

(** ** JavaScript numbers, strings and completions *)

Local Open Scope string_scope.
Local Open Scope Z_scope.

(** The numbers the resolver computes with: integers, the two
    infinities and NaN. *)
Inductive JsNum : Type :=
| Fin (z : Z)
| PosInf
| NegInf
| NaN.

Definition JsNum_sub (a b : JsNum) : JsNum :=
  match a, b with
  | Fin x, Fin y => Fin (x - y)
  | Fin _, PosInf => NegInf
  | Fin _, NegInf => PosInf
  | PosInf, (Fin _ | NegInf) => PosInf
  | NegInf, (Fin _ | PosInf) => NegInf
  | PosInf, PosInf => NaN
  | NegInf, NegInf => NaN
  | NaN, _ | _, NaN => NaN
  end.

(** [v > 0], the only test [Array.prototype.sort] needs to move an
    element behind another; NaN counts as 0. *)
Definition JsNum_positive (v : JsNum) : bool :=
  match v with
  | Fin z => 0 <? z
  | PosInf => true
  | NegInf | NaN => false
  end.

(** A call either returns or throws a [TypeError]. *)
Inductive Completion (A : Type) : Type :=
| Normal (a : A)
| ThrowTypeError.
Arguments Normal {A} a.
Arguments ThrowTypeError {A}.

Definition bind {A B : Type} (c : Completion A) (k : A -> Completion B)
  : Completion B :=
  match c with
  | Normal a => k a
  | ThrowTypeError => ThrowTypeError
  end.

Notation "x <- c ;; k" := (bind c (fun x => k))
  (at level 61, c at next level, right associativity).

(** [n.toString()] for an integer. *)
Definition digitChar (d : Z) : ascii := ascii_of_nat (48 + Z.to_nat d).

Fixpoint digitsOf (fuel : nat) (n : Z) (acc : string) : string :=
  match fuel with
  | O => acc
  | S fuel' =>
      let acc' := String (digitChar (n mod 10)) acc in
      if n <? 10 then acc' else digitsOf fuel' (n / 10) acc'
  end.

Definition toString (n : Z) : string :=
  if n <? 0
  then String "-" (digitsOf (S (Z.to_nat (Z.log2 (- n)))) (- n) EmptyString)
  else digitsOf (S (Z.to_nat (Z.log2 n))) n EmptyString.

Fixpoint repeatChar (k : nat) (c : ascii) : string :=
  match k with
  | O => EmptyString
  | S k' => String c (repeatChar k' c)
  end.

(** [s.padStart(targetLength, c)] for a one-character filler. *)
Definition padStart (s : string) (targetLength : nat) (c : ascii) : string :=
  repeatChar (targetLength - String.length s) c ++ s.

(** [s.split('-')]. *)
Fixpoint splitDash (s : string) : list string :=
  match s with
  | EmptyString => [EmptyString]
  | String c rest =>
      if Ascii.eqb c "-" then EmptyString :: splitDash rest
      else match splitDash rest with
           | [] => [String c EmptyString]
           | piece :: pieces => String c piece :: pieces
           end
  end.

Definition digitValue (c : ascii) : option Z :=
  let k := Z.of_nat (nat_of_ascii c) in
  if (48 <=? k) && (k <=? 57) then Some (k - 48) else None.

Fixpoint digitsValue (s : string) (acc : Z) : option Z :=
  match s with
  | EmptyString => Some acc
  | String c rest =>
      match digitValue c with
      | Some v => digitsValue rest (10 * acc + v)
      | None => None
      end
  end.

(** [Number(s)] on the strings of the catalog format: a run of decimal
    digits is its value and the empty string is 0.  Every other string
    is NaN here; the signs, blanks, fractions, exponents and radix
    prefixes that JavaScript also reads do not occur in month-day
    fields. *)
Definition Number (s : string) : JsNum :=
  match digitsValue s 0 with
  | Some v => Fin v
  | None => NaN
  end.

(** ** Data model *)

Inductive DateRule : Type :=
| Range (from to : string)
| HolidayOffset (holiday : string) (start end_ : Z)
| NthWeekday (month weekday n : Z) (duration : option Z)
| Always
| OtherKind (kind : string).

Record Metadata : Type := mkMetadata {
  actualDate : option string;
  description : option string
}.

Module ThemeRule.
Record t : Type := mk {
  name : string;
  rule : DateRule;
  enabled : option bool;
  region : option (list string);
  metadata : option Metadata
}.
End ThemeRule.

Record ThemeRulesConfig : Type := mkConfig {
  seasonal : list ThemeRule.t;
  holidays : list ThemeRule.t;
  cultural : list ThemeRule.t;
  everyday : list ThemeRule.t
}.

Record ResolverOptions : Type := mkOptions {
  enabledCultures : option (list string);
  userRegion : option string
}.

Inductive Category : Type :=
| CatSeasonal
| CatHolidays
| CatCultural
| CatEveryday.

Module ResolvedTheme.
Record t : Type := mk {
  name : string;
  category : Category;
  rule : DateRule;
  metadata : option Metadata
}.
End ResolvedTheme.

(** A rule of the flattened catalog: the rule and its category. *)
Definition TaggedRule : Type := (ThemeRule.t * Category)%type.

(** [list.includes(s)] on strings. *)
Definition includes (l : list string) (s : string) : bool :=
  existsb (String.eqb s) l.

(** [list.find(r => r.name === s)]. *)
Definition findByName {A : Type} (nameOf : A -> string) (s : string)
  (l : list A) : option A :=
  find (fun r => String.eqb (nameOf r) s) l.

(** ** Holiday calculator *)

Definition calculateEaster (year : Z) : Date :=
  let a := Z.rem year 19 in
  let b := year / 100 in
  let c := Z.rem year 100 in
  let d := b / 4 in
  let e := Z.rem b 4 in
  let f := (b + 8) / 25 in
  let g := (b - f + 1) / 3 in
  let h := Z.rem (19 * a + b - d - g + 15) 30 in
  let i := c / 4 in
  let k := Z.rem c 4 in
  let l := Z.rem (32 + 2 * e + 2 * i - h - k) 7 in
  let m := (a + 11 * h + 22 * l) / 451 in
  let month := (h + l - 7 * m + 114) / 31 in
  let day := Z.rem (h + l - 7 * m + 114) 31 + 1 in
  newDate year (month - 1) day.

(** ** Rule evaluator *)

Definition isInRange (from to : string) (date : Date) : bool :=
  let month := getMonth date + 1 in
  let day := getDate date in
  let currentDate :=
    padStart (toString month) 2 "0" ++ "-" ++ padStart (toString day) 2 "0" in
  if String.leb from to
  then String.leb from currentDate && String.leb currentDate to
  else String.leb from currentDate || String.leb currentDate to.

Definition isHolidayOffsetActive (holiday : string) (startOffset endOffset : Z)
  (date : Date) (year : Z) : bool :=
  if String.eqb holiday "easter" then
    let holidayDate := calculateEaster year in
    let startDate := setDate holidayDate (getDate holidayDate + startOffset) in
    let endDate := setDate holidayDate (getDate holidayDate + endOffset) in
    geb date startDate && leb date endDate
  else false.

(** The loop over the days 1..31 of [isNthWeekdayActive]: it stops at
    the first day that falls outside the month and at the [n]-th
    occurrence of the weekday. *)
Fixpoint findNthWeekday (year month weekday n : Z) (days : list Z) (count : Z)
  : option Date :=
  match days with
  | [] => None
  | day :: rest =>
      let testDate := newDate year (month - 1) day in
      if negb (getMonth testDate =? month - 1) then None
      else if getDay testDate =? weekday then
        let count' := count + 1 in
        if count' =? n then Some testDate
        else findNthWeekday year month weekday n rest count'
      else findNthWeekday year month weekday n rest count
  end.

Definition days1to31 : list Z := map Z.of_nat (seq 1 31).

Definition isNthWeekdayActive (month weekday n duration : Z) (date : Date)
  : bool :=
  let year := getFullYear date in
  match findNthWeekday year month weekday n days1to31 0 with
  | None => false
  | Some targetDate =>
      if 1 <? duration then
        let halfDuration := duration / 2 in
        let startDate := setDate targetDate (getDate targetDate - halfDuration) in
        let endDate :=
          setDate targetDate (getDate targetDate + (duration - halfDuration - 1)) in
        geb date startDate && leb date endDate
      else dateString_eqb (toDateString date) (toDateString targetDate)
  end.

(** [rule.duration || 1]: an absent or zero duration is 1. *)
Definition durationOr1 (duration : option Z) : Z :=
  match duration with
  | None => 1
  | Some d => if d =? 0 then 1 else d
  end.

Definition isRuleActive (rule : DateRule) (date : Date) (year : Z) : bool :=
  match rule with
  | Range from to => isInRange from to date
  | HolidayOffset holiday start end_ =>
      isHolidayOffsetActive holiday start end_ date year
  | NthWeekday month weekday n duration =>
      isNthWeekdayActive month weekday n (durationOr1 duration) date
  | Always => true
  | OtherKind _ => false
  end.

(** ** Duration estimator *)

(** [new Date(year, monthIndex, day)] on numbers: NaN in a field gives
    an invalid date, [None] here. *)
Definition newDateOfNums (year : Z) (monthIndex day : JsNum) : option Date :=
  match monthIndex, day with
  | Fin m, Fin d => Some (newDate year m d)
  | _, _ => None
  end.

(** [Math.ceil(a / b)] for [b > 0]. *)
Definition ceilDiv (a b : Z) : Z := - ((- a) / b).

Definition getThemeDuration (rule : DateRule) (year : Z) : JsNum :=
  match rule with
  | Range from to =>
      let fromParts := map Number (splitDash from) in
      let toParts := map Number (splitDash to) in
      let fromMonth := nth 0 fromParts NaN in
      let fromDay := nth 1 fromParts NaN in
      let toMonth := nth 0 toParts NaN in
      let toDay := nth 1 toParts NaN in
      match newDateOfNums year (JsNum_sub fromMonth (Fin 1)) fromDay,
            newDateOfNums year (JsNum_sub toMonth (Fin 1)) toDay with
      | Some startDate, Some endDate0 =>
          let endDate :=
            if ltb endDate0 startDate then setFullYear endDate0 (year + 1)
            else endDate0 in
          let diffTime := getTime endDate - getTime startDate in
          Fin (ceilDiv diffTime msPerDay + 1)
      | _, _ => NaN
      end
  | HolidayOffset _ start end_ => Fin (Z.abs (end_ - start) + 1)
  | NthWeekday _ _ _ duration => Fin (durationOr1 duration)
  | Always => PosInf
  | OtherKind _ => PosInf
  end.

(** ** Resolution engine *)

(** [Array.prototype.sort(cmp)].  The sort is stable, and an element
    moves behind another only when the comparator is positive on the
    pair; a comparator that throws ends the sort.  Whenever the
    comparator orders the elements consistently every conforming sort
    returns the list this insertion sort returns. *)
Section Sort.

Context {A : Type} (cmp : A -> A -> Completion JsNum).

Fixpoint insertBy (x : A) (l : list A) : Completion (list A) :=
  match l with
  | [] => Normal [x]
  | y :: ys =>
      v <- cmp x y ;;
      if JsNum_positive v
      then (r <- insertBy x ys ;; Normal (y :: r))
      else Normal (x :: y :: ys)
  end.

Fixpoint sortBy (l : list A) : Completion (list A) :=
  match l with
  | [] => Normal []
  | x :: xs => s <- sortBy xs ;; insertBy x s
  end.

End Sort.

Definition tag (c : Category) (r : ThemeRule.t) : TaggedRule := (r, c).

Definition allRulesOf (config : ThemeRulesConfig) : list TaggedRule :=
  (map (tag CatSeasonal) (seasonal config)
   ++ map (tag CatHolidays) (holidays config)
   ++ map (tag CatCultural) (cultural config)
   ++ map (tag CatEveryday) (everyday config))%list.

Definition taggedName (r : TaggedRule) : string := ThemeRule.name (fst r).

(** The callback of [allRules.filter]. *)
Definition isAvailable (enabledCultures : list string)
  (userRegion : option string) (r : TaggedRule) : bool :=
  if String.eqb (taggedName r) "everyday" then false
  else match ThemeRule.enabled (fst r) with
       | None | Some true => true
       | Some false =>
           includes enabledCultures (taggedName r)
           || match ThemeRule.region (fst r), userRegion with
              | Some region, Some u =>
                  negb (String.eqb u "") && includes region u
              | _, _ => false
              end
       end.

Definition toResolved (r : TaggedRule) : ResolvedTheme.t :=
  ResolvedTheme.mk (ThemeRule.name (fst r)) (snd r)
    (ThemeRule.rule (fst r)) (ThemeRule.metadata (fst r)).

(** The comparator of [matchingThemes.sort]: each side is looked up by
    name in the flattened catalog; reading [.rule] of a failed lookup
    throws. *)
Definition compareThemes (allRules : list TaggedRule) (year : Z)
  (a b : ResolvedTheme.t) : Completion JsNum :=
  let ruleA := findByName taggedName (ResolvedTheme.name a) allRules in
  let ruleB := findByName taggedName (ResolvedTheme.name b) allRules in
  match ruleA with
  | None => ThrowTypeError
  | Some ra =>
      let durationA := getThemeDuration (ThemeRule.rule (fst ra)) year in
      match ruleB with
      | None => ThrowTypeError
      | Some rb =>
          let durationB := getThemeDuration (ThemeRule.rule (fst rb)) year in
          Normal (JsNum_sub durationA durationB)
      end
  end.

Definition enabledCulturesOf (options : ResolverOptions) : list string :=
  match enabledCultures options with
  | Some l => l
  | None => []
  end.

Definition availableRulesOf (config : ThemeRulesConfig)
  (options : ResolverOptions) : list TaggedRule :=
  filter (isAvailable (enabledCulturesOf options) (userRegion options))
         (allRulesOf config).

(** The matches in catalog order, before sorting. *)
Definition matchingThemesOf (config : ThemeRulesConfig) (date : Date)
  (options : ResolverOptions) : list ResolvedTheme.t :=
  let year := getFullYear date in
  map toResolved
    (filter (fun r => isRuleActive (ThemeRule.rule (fst r)) date year)
            (availableRulesOf config options)).

Definition fallbackOf (config : ThemeRulesConfig) : list ResolvedTheme.t :=
  match findByName ThemeRule.name "everyday" (everyday config) with
  | Some everydayRule =>
      [ResolvedTheme.mk "everyday" CatEveryday
         (ThemeRule.rule everydayRule) (ThemeRule.metadata everydayRule)]
  | None => []
  end.

Definition resolveThemesForDate (config : ThemeRulesConfig) (date : Date)
  (options : ResolverOptions) : Completion (list ResolvedTheme.t) :=
  let year := getFullYear date in
  let allRules := allRulesOf config in
  let matchingThemes := matchingThemesOf config date options in
  sorted <- sortBy (compareThemes allRules year) matchingThemes ;;
  match sorted with
  | [] => Normal (fallbackOf config)
  | _ :: _ => Normal sorted
  end.

Definition resolvePrimaryThemeForDate (config : ThemeRulesConfig) (date : Date)
  (options : ResolverOptions) : Completion (option ResolvedTheme.t) :=
  themes <- resolveThemesForDate config date options ;;
  Normal (match themes with
          | [] => None
          | first :: _ => Some first
          end).

(** ** Vocabulary of the properties *)

(** Calendar fields of a date as the triple year, month 1..12, day. *)
Definition civilOf (d : Date) : Z * Z * Z :=
  (getFullYear d, getMonth d + 1, getDate d).

(** The day number of 1 January, as ECMAScript defines it. *)
Definition DayFromYear (y : Z) : Z :=
  365 * (y - 1970) + (y - 1969) / 4 - (y - 1901) / 100 + (y - 1601) / 400.

(** Leap years of the Gregorian calendar. *)
Definition isLeapYear (y : Z) : bool :=
  ((y mod 4 =? 0) && negb (y mod 100 =? 0)) || (y mod 400 =? 0).

(** Length of the month [m] in 1..12 of the year [y]. *)
Definition daysInMonth (y m : Z) : Z :=
  if m =? 2 then (if isLeapYear y then 29 else 28)
  else if (m =? 4) || (m =? 6) || (m =? 9) || (m =? 11) then 30 else 31.

(** The two-digit, zero-padded decimal form of a number below 100. *)
Definition twoDigits (n : Z) : string :=
  String (digitChar (n / 10)) (String (digitChar (n mod 10)) EmptyString).

(** The zero-padded month-day string [MM-DD] of a date. *)
Definition monthDayString (date : Date) : string :=
  twoDigits (getMonth date + 1) ++ "-" ++ twoDigits (getDate date).

(** The day, read in the month, stays inside the month. *)
Definition inMonth (year month day : Z) : bool :=
  getMonth (newDate year (month - 1) day) =? month - 1.

(** The leading days of the list that stay inside the month. *)
Fixpoint monthDays (year month : Z) (days : list Z) : list Z :=
  match days with
  | [] => []
  | day :: rest =>
      if inMonth year month day then day :: monthDays year month rest else []
  end.

(** The days of the month that fall on the weekday, in order. *)
Definition occurrences (year month weekday : Z) (days : list Z) : list Z :=
  filter (fun day => getDay (newDate year (month - 1) day) =? weekday)
         (monthDays year month days).

(** The anchor the evaluator computes for a year. *)
Definition nthWeekdayAnchor (year month weekday n : Z) : option Date :=
  findNthWeekday year month weekday n days1to31 0.

(** The order on durations: integers by size, below Infinity. *)
Definition JsNum_leb (a b : JsNum) : bool :=
  match a, b with
  | NaN, _ | _, NaN => false
  | NegInf, _ => true
  | _, PosInf => true
  | Fin x, Fin y => x <=? y
  | _, _ => false
  end.

(** Equality of numbers as keys; NaN is one key. *)
Definition JsNum_eqb (a b : JsNum) : bool :=
  match a, b with
  | Fin x, Fin y => x =? y
  | PosInf, PosInf | NegInf, NegInf | NaN, NaN => true
  | _, _ => false
  end.

(** A duration proper: a number of days or Infinity. *)
Definition isDuration (a : JsNum) : Prop :=
  match a with
  | Fin _ | PosInf => True
  | NegInf | NaN => False
  end.

Section SortKey.

Context {A : Type} (key : A -> JsNum).

(** Insertion under the comparator [key a - key b]: the new element
    passes the elements of smaller key only. *)
Fixpoint insertKey (x : A) (l : list A) : list A :=
  match l with
  | [] => [x]
  | y :: ys =>
      if JsNum_positive (JsNum_sub (key x) (key y))
      then y :: insertKey x ys
      else x :: y :: ys
  end.

(** Stable insertion sort in non-decreasing order of the keys. *)
Fixpoint sortKey (l : list A) : list A :=
  match l with
  | [] => []
  | x :: xs => insertKey x (sortKey xs)
  end.

(** Order and classes of elements by key. *)
Definition keyLe (a b : A) : Prop := JsNum_leb (key a) (key b) = true.

Definition hasKey (k : JsNum) (a : A) : bool := JsNum_eqb (key a) k.

End SortKey.

(** The duration the comparator uses for an entry: that of the first
    rule of the flattened catalog with the entry's name. *)
Definition keyOf (allRules : list TaggedRule) (year : Z) (t : ResolvedTheme.t)
  : JsNum :=
  match findByName taggedName (ResolvedTheme.name t) allRules with
  | Some r => getThemeDuration (ThemeRule.rule (fst r)) year
  | None => NaN
  end.

(** The available rules that are active on the date, in catalog order. *)
Definition activeRulesOf (config : ThemeRulesConfig) (date : Date)
  (options : ResolverOptions) : list TaggedRule :=
  filter (fun r => isRuleActive (ThemeRule.rule (fst r)) date (getFullYear date))
         (availableRulesOf config options).

(** The list the resolver returns. *)
Definition resolvedThemes (config : ThemeRulesConfig) (date : Date)
  (options : ResolverOptions) : list ResolvedTheme.t :=
  match sortKey (keyOf (allRulesOf config) (getFullYear date))
                (matchingThemesOf config date options) with
  | [] => fallbackOf config
  | first :: others => first :: others
  end.

(** The matches that one list of the catalog contributes, in the order
    of the list. *)
Definition matchesOfList (c : Category) (rules : list ThemeRule.t)
  (date : Date) (options : ResolverOptions) : list ResolvedTheme.t :=
  map toResolved
    (filter (fun r => isRuleActive (ThemeRule.rule (fst r)) date (getFullYear date))
       (filter (isAvailable (enabledCulturesOf options) (userRegion options))
          (map (tag c) rules))).

(** The list of the catalog that holds a category. *)
Definition rulesOfCategory (config : ThemeRulesConfig) (c : Category)
  : list ThemeRule.t :=
  match c with
  | CatSeasonal => seasonal config
  | CatHolidays => holidays config
  | CatCultural => cultural config
  | CatEveryday => everyday config
  end.

(** The enablement test of the filter, for a rule not named everyday. *)
Definition passesEnablement (ec : list string) (ur : option string)
  (r : ThemeRule.t) : Prop :=
  ThemeRule.enabled r = Some false ->
  In (ThemeRule.name r) ec \/
  exists region u,
    ThemeRule.region r = Some region /\ ur = Some u /\ u <> "" /\ In u region.

(** A small catalog used to instantiate the theorems. *)
Definition sampleConfig : ThemeRulesConfig :=
  mkConfig
    [ThemeRule.mk "winter" (Range "12-01" "02-28") None None None;
     ThemeRule.mk "christmas" (Range "12-24" "12-26") None None None]
    [ThemeRule.mk "easter" (HolidayOffset "easter" (-2) 0) None None None;
     ThemeRule.mk "thanksgiving" (NthWeekday 11 4 4 (Some 1)) (Some true) None None]
    [ThemeRule.mk "diwali" (Range "10-20" "10-24") (Some false)
       (Some ["india"]) None]
    [ThemeRule.mk "everyday" Always None None None].

(** The default options. *)
Definition noOptions : ResolverOptions := mkOptions None None.

(** A decimal digit. *)
Definition isDigit (c : ascii) : bool :=
  match digitValue c with
  | Some _ => true
  | None => false
  end.

(** A month-day string of the catalog format: two digits, a dash, two
    digits. *)
Definition validMonthDay (s : string) : bool :=
  match s with
  | String a (String b (String sep (String c (String d EmptyString)))) =>
      isDigit a && isDigit b && Ascii.eqb sep "-" && isDigit c && isDigit d
  | _ => false
  end.

(** A validated rule: the bounds of a range are month-day strings. *)
Definition validRule (rule : DateRule) : bool :=
  match rule with
  | Range from to => validMonthDay from && validMonthDay to
  | _ => true
  end.

(** The duration of an entry's own rule in the year of the date. *)
Definition durationOf (date : Date) (t : ResolvedTheme.t) : JsNum :=
  getThemeDuration (ResolvedTheme.rule t) (getFullYear date).

(** * Properties *)

(** ** Calendar arithmetic *)

Example epoch_day : days_from_civil 1970 1 1 = 0.
Proof. reflexivity. Qed.

Example epoch_civil : civil_from_days 0 = (1970, 1, 1).
Proof. reflexivity. Qed.

Example christmas_2025_weekday : getDay (newDate 2025 11 25) = 4.
Proof. reflexivity. Qed.

Section Calendar.

(** The civil date computed for a day number has a month in 1..12 and a
    day in 1..31, and converts back to the same day number. *)
Lemma civil_from_days_spec (n : Z) :
  exists y m d,
    civil_from_days n = (y, m, d) /\
    1 <= m <= 12 /\ 1 <= d <= 31 /\
    days_from_civil y m d = n.
Proof.
  unfold civil_from_days; cbv zeta.
  set (z := n + 719468).
  pose proof (Z.mod_pos_bound z 146097 ltac:(lia)) as Hdoe.
  pose proof (Z.div_mod z 146097 ltac:(lia)) as Hz.
  set (doe := z mod 146097) in *.
  set (era := z / 146097) in *.
  assert (Hyoe : 0 <= (doe - doe / 1460 + doe / 36524 - doe / 146096) / 365 <= 399)
    by (clearbody doe; clear Hz; Z.div_mod_to_equations; lia).
  assert (Hdoy : 0 <= doe - (365 * ((doe - doe / 1460 + doe / 36524 - doe / 146096) / 365)
                             + (doe - doe / 1460 + doe / 36524 - doe / 146096) / 365 / 4
                             - (doe - doe / 1460 + doe / 36524 - doe / 146096) / 365 / 100) <= 365)
    by (clearbody doe; clear Hz; Z.div_mod_to_equations; lia).
  set (yoe := (doe - doe / 1460 + doe / 36524 - doe / 146096) / 365) in *.
  set (doy := doe - (365 * yoe + yoe / 4 - yoe / 100)) in *.
  assert (Hmp : 0 <= (5 * doy + 2) / 153 <= 11)
    by (clearbody doy; Z.div_mod_to_equations; lia).
  assert (Hd : 1 <= doy - (153 * ((5 * doy + 2) / 153) + 2) / 5 + 1 <= 31)
    by (clearbody doy; Z.div_mod_to_equations; lia).
  set (mp := (5 * doy + 2) / 153) in *.
  set (d := doy - (153 * mp + 2) / 5 + 1) in *.
  do 3 eexists. split; [reflexivity|].
  assert (Hera : forall k, (k + era * 400) / 400 = k / 400 + era)
    by (intro k; apply Z.div_add; lia).
  assert (Hmod : forall k, (k + era * 400) mod 400 = k mod 400)
    by (intro k; apply Z.mod_add; lia).
  unfold days_from_civil; cbv zeta.
  destruct (mp <? 10) eqn:E; [apply Z.ltb_lt in E | apply Z.ltb_ge in E].
  - replace (mp + 3 <=? 2) with false by (symmetry; apply Z.leb_gt; lia).
    replace (2 <? mp + 3) with true by (symmetry; apply Z.ltb_lt; lia).
    replace (mp + 3 - 3) with mp by lia.
    rewrite Hera, Hmod.
    rewrite (Z.div_small yoe 400), (Z.mod_small yoe 400) by lia.
    repeat split; lia.
  - replace (mp - 9 <=? 2) with true by (symmetry; apply Z.leb_le; lia).
    replace (2 <? mp - 9) with false by (symmetry; apply Z.ltb_ge; lia).
    replace (mp - 9 + 9) with mp by lia.
    replace (yoe + era * 400 + 1 - 1) with (yoe + era * 400) by lia.
    rewrite Hera, Hmod.
    rewrite (Z.div_small yoe 400), (Z.mod_small yoe 400) by lia.
    repeat split; lia.
Qed.

(** [days_from_civil] is affine in the day of the month. *)
Lemma days_from_civil_day (y m d k : Z) :
  days_from_civil y m (d + k) = days_from_civil y m d + k.
Proof. unfold days_from_civil; cbv zeta; lia. Qed.

(** Rebuilding the day from the fields of a time value, with the day of
    the month moved by [k], moves the day number by [k]. *)
Lemma MakeDay_fields (t k : Z) :
  MakeDay (YearFromTime t) (MonthFromTime t) (DateFromTime t + k) = Day t + k.
Proof.
  unfold YearFromTime, MonthFromTime, DateFromTime, MakeDay; cbv zeta.
  destruct (civil_from_days_spec (Day t)) as (y & m & d & -> & Hm & Hd & Hback).
  rewrite (Z.div_small (m - 1) 12), (Z.mod_small (m - 1) 12) by lia.
  replace (y + 0) with y by lia.
  replace (m - 1 + 1) with m by lia.
  replace 1 with (d + (1 - d)) at 1 by lia.
  rewrite days_from_civil_day. lia.
Qed.

Lemma timeValue_split (t : Z) : t = Day t * msPerDay + TimeWithinDay t.
Proof.
  unfold Day, TimeWithinDay.
  pose proof (Z.div_mod t msPerDay ltac:(unfold msPerDay; lia)). lia.
Qed.

(** [d.setDate(d.getDate() + k)] adds [k] whole days. *)
Lemma setDate_getDate_plus (d : Date) (k : Z) :
  timeValue (setDate d (getDate d + k)) = timeValue d + k * msPerDay.
Proof.
  unfold setDate, getDate, MakeDate; cbn [timeValue].
  rewrite MakeDay_fields.
  pose proof (timeValue_split (timeValue d)). lia.
Qed.

Lemma newDate_midnight (y m d : Z) : atMidnight (newDate y m d).
Proof.
  unfold atMidnight, newDate, MakeDate, TimeWithinDay; cbn [timeValue].
  rewrite Z.add_0_r. apply Z.mod_mul. unfold msPerDay; lia.
Qed.

Lemma atMidnight_timeValue (d : Date) :
  atMidnight d -> timeValue d = dayNumber d * msPerDay.
Proof.
  unfold atMidnight, dayNumber. intro H.
  pose proof (timeValue_split (timeValue d)). lia.
Qed.

(** Two dates print the same date string exactly when they fall on the
    same day. *)
Lemma toDateString_same_day (a b : Date) :
  dateString_eqb (toDateString a) (toDateString b) = true <->
  dayNumber a = dayNumber b.
Proof.
  unfold toDateString, dateString_eqb, getDay, getMonth, getDate, getFullYear,
    WeekDay, MonthFromTime, DateFromTime, YearFromTime, dayNumber.
  destruct (civil_from_days_spec (Day (timeValue a))) as (y1 & m1 & d1 & E1 & _ & _ & B1).
  destruct (civil_from_days_spec (Day (timeValue b))) as (y2 & m2 & d2 & E2 & _ & _ & B2).
  rewrite E1, E2.
  rewrite !andb_true_iff, !Z.eqb_eq.
  split.
  - intros [[[_ Hm] Hd] Hy].
    assert (m1 = m2) by lia. subst. congruence.
  - intro H. rewrite H in E1. rewrite E1 in E2.
    injection E2 as -> -> ->. rewrite H. repeat split; reflexivity.
Qed.

(** The first of January falls on the day ECMAScript's [DayFromYear]
    gives. *)
Lemma days_from_civil_january (y : Z) : days_from_civil y 1 1 = DayFromYear y.
Proof.
  unfold days_from_civil, DayFromYear. cbv zeta.
  change (1 <=? 2) with true. change (2 <? 1) with false. cbv iota.
  change ((153 * (1 + 9) + 2) / 5) with 306.
  Z.div_mod_to_equations; lia.
Qed.

Lemma isLeapYear_spec (y : Z) :
  isLeapYear y = true <-> (y mod 4 = 0 /\ y mod 100 <> 0) \/ y mod 400 = 0.
Proof.
  unfold isLeapYear.
  rewrite orb_true_iff, andb_true_iff, negb_true_iff, !Z.eqb_eq, Z.eqb_neq.
  reflexivity.
Qed.

Lemma daysInMonth_range (y m : Z) : 28 <= daysInMonth y m <= 31.
Proof.
  unfold daysInMonth.
  destruct (m =? 2); [destruct (isLeapYear y); lia|].
  destruct ((m =? 4) || (m =? 6) || (m =? 9) || (m =? 11)); lia.
Qed.

(** From the era, the year of the era, the month counted from March and
    the day back to the calendar fields. *)
Lemma civil_from_parts (era yoe mp d : Z) :
  0 <= yoe <= 399 -> 0 <= mp <= 11 ->
  1 <= d ->
  (mp = 0 \/ mp = 2 \/ mp = 4 \/ mp = 5 \/ mp = 7 \/ mp = 9 \/ mp = 10 -> d <= 31) ->
  (mp = 1 \/ mp = 3 \/ mp = 6 \/ mp = 8 -> d <= 30) ->
  (mp = 11 ->
   d <= 29 /\ (d = 29 -> yoe mod 4 = 3 /\ (yoe mod 100 <> 99 \/ yoe = 399))) ->
  civil_from_days
    (era * 146097
     + (yoe * 365 + yoe / 4 - yoe / 100 + ((153 * mp + 2) / 5 + d - 1))
     - 719468) =
  (if (if mp <? 10 then mp + 3 else mp - 9) <=? 2
   then yoe + era * 400 + 1 else yoe + era * 400,
   if mp <? 10 then mp + 3 else mp - 9, d).
Proof.
  intros Hy Hmp Hd1 H31 H30 H29.
  unfold civil_from_days. cbv zeta.
  set (doy := (153 * mp + 2) / 5 + d - 1).
  set (doe := yoe * 365 + yoe / 4 - yoe / 100 + doy).
  replace (era * 146097 + doe - 719468 + 719468) with (era * 146097 + doe) by lia.
  set (z := era * 146097 + doe).
  assert (M : mp = 0 \/ mp = 1 \/ mp = 2 \/ mp = 3 \/ mp = 4 \/ mp = 5 \/
              mp = 6 \/ mp = 7 \/ mp = 8 \/ mp = 9 \/ mp = 10 \/ mp = 11) by lia.
  assert (Hdoy : 0 <= doy <= 365 /\
                 (doy = 365 -> yoe mod 4 = 3 /\ (yoe mod 100 <> 99 \/ yoe = 399))).
  { subst doy.
    repeat (destruct M as [-> | M]); [ .. | subst mp];
      match goal with
      | |- context [(153 * ?k + 2) / 5] =>
          let v := eval vm_compute in ((153 * k + 2) / 5) in
          change ((153 * k + 2) / 5) with v
      end; lia. }
  assert (Hmp2 : (5 * doy + 2) / 153 = mp /\ doy - (153 * mp + 2) / 5 + 1 = d).
  { subst doy.
    repeat (destruct M as [-> | M]); [ .. | subst mp];
      match goal with
      | |- context [(153 * ?k + 2) / 5] =>
          let v := eval vm_compute in ((153 * k + 2) / 5) in
          change ((153 * k + 2) / 5) with v
      end;
      (split; [Z.div_mod_to_equations; lia | lia]). }
  clearbody doy. clear H31 H30 H29 Hd1 M.
  destruct Hdoy as [B L].
  assert (Hdoe : 0 <= doe < 146097)
    by (subst doe; clear Hmp2; Z.div_mod_to_equations; lia).
  assert (Hz : z / 146097 = era /\ z mod 146097 = doe)
    by (subst z; clearbody doe; Z.div_mod_to_equations; lia).
  destruct Hz as [Hz1 Hz2]. rewrite Hz1, Hz2.
  assert (Hyoe : (doe - doe / 1460 + doe / 36524 - doe / 146096) / 365 = yoe)
    by (subst doe; clear Hmp2 Hz1 Hz2 z Hdoe; Z.div_mod_to_equations; lia).
  rewrite Hyoe.
  replace (doe - (365 * yoe + yoe / 4 - yoe / 100)) with doy by (subst doe; lia).
  destruct Hmp2 as [-> ->]. reflexivity.
Qed.

(** A date of the calendar converts to its day number and back. *)
Lemma civil_from_days_from_civil (y m d : Z) :
  1 <= m <= 12 -> 1 <= d <= daysInMonth y m ->
  civil_from_days (days_from_civil y m d) = (y, m, d).
Proof.
  intros Hm Hd.
  unfold days_from_civil. cbv zeta.
  set (y' := if m <=? 2 then y - 1 else y).
  set (mp := if 2 <? m then m - 3 else m + 9).
  pose proof (Z.mod_pos_bound y' 400 ltac:(lia)) as Hyoe.
  pose proof (Z.div_mod y' 400 ltac:(lia)) as Hy'.
  assert (Hmp : 0 <= mp <= 11 /\ m = (if mp <? 10 then mp + 3 else mp - 9) /\
                y = (if m <=? 2 then y' + 1 else y')).
  { subst mp y'. destruct (2 <? m) eqn:E1, (m <=? 2) eqn:E2;
      try (apply Z.ltb_lt in E1); try (apply Z.ltb_ge in E1);
      try (apply Z.leb_le in E2); try (apply Z.leb_gt in E2); try lia.
    - replace (m - 3 <? 10) with true by (symmetry; apply Z.ltb_lt; lia). lia.
    - replace (m + 9 <? 10) with false by (symmetry; apply Z.ltb_ge; lia). lia. }
  destruct Hmp as (Hmp & Em & Ey). clearbody mp y'.
  assert (Hdim :
            (mp = 0 \/ mp = 2 \/ mp = 4 \/ mp = 5 \/ mp = 7 \/ mp = 9 \/ mp = 10 ->
             d <= 31) /\
            (mp = 1 \/ mp = 3 \/ mp = 6 \/ mp = 8 -> d <= 30) /\
            (mp = 11 ->
             d <= 29 /\
             (d = 29 -> y' mod 400 mod 4 = 3 /\
                        (y' mod 400 mod 100 <> 99 \/ y' mod 400 = 399)))).
  { unfold daysInMonth in Hd.
    destruct (m =? 2) eqn:E2; [apply Z.eqb_eq in E2 | apply Z.eqb_neq in E2].
    - subst m. change (2 <=? 2) with true in Ey. cbv iota in Ey.
      assert (mp = 11)
        by (destruct (mp <? 10) eqn:E;
            [apply Z.ltb_lt in E | apply Z.ltb_ge in E]; lia).
      split; [lia|]. split; [lia|]. intros _.
      destruct (isLeapYear y) eqn:L.
      + apply isLeapYear_spec in L. split; [lia|]. intros _.
        clear Hd. Z.div_mod_to_equations. lia.
      + lia.
    - destruct ((m =? 4) || (m =? 6) || (m =? 9) || (m =? 11)) eqn:E30.
      + rewrite !orb_true_iff, !Z.eqb_eq in E30.
        destruct (mp <? 10) eqn:E;
          [apply Z.ltb_lt in E | apply Z.ltb_ge in E]; lia.
      + rewrite !orb_false_iff, !Z.eqb_neq in E30.
        destruct (mp <? 10) eqn:E;
          [apply Z.ltb_lt in E | apply Z.ltb_ge in E]; lia. }
  destruct Hdim as (H31 & H30 & H29).
  rewrite (civil_from_parts (y' / 400) (y' mod 400) mp d ltac:(lia) Hmp
             (proj1 Hd) H31 H30 H29).
  rewrite <- Em. destruct (m <=? 2); f_equal; f_equal; lia.
Qed.

Ltac eval_closed_tests :=
  repeat match goal with
         | |- context [?a <=? ?b] =>
             let v := eval vm_compute in (a <=? b) in
             lazymatch v with
             | true => change (a <=? b) with true
             | false => change (a <=? b) with false
             end
         | |- context [?a <? ?b] =>
             let v := eval vm_compute in (a <? b) in
             lazymatch v with
             | true => change (a <? b) with true
             | false => change (a <? b) with false
             end
         | |- context [?a =? ?b] =>
             let v := eval vm_compute in (a =? b) in
             lazymatch v with
             | true => change (a =? b) with true
             | false => change (a =? b) with false
             end
         end;
  cbv iota; cbn [orb andb negb].

(** The day after the last day of a month is the first day of the next
    month. *)
Lemma days_from_civil_next_month (y m : Z) :
  1 <= m <= 12 ->
  days_from_civil y m (daysInMonth y m + 1) =
  if m =? 12 then days_from_civil (y + 1) 1 1 else days_from_civil y (m + 1) 1.
Proof.
  intro Hm.
  assert (M : m = 1 \/ m = 2 \/ m = 3 \/ m = 4 \/ m = 5 \/ m = 6 \/ m = 7 \/
              m = 8 \/ m = 9 \/ m = 10 \/ m = 11 \/ m = 12) by lia.
  unfold daysInMonth, days_from_civil. cbv zeta.
  repeat (destruct M as [-> | M]); [ .. | subst m]; eval_closed_tests;
    try (Z.div_mod_to_equations; lia).
  destruct (isLeapYear y) eqn:L.
  - apply isLeapYear_spec in L. Z.div_mod_to_equations. lia.
  - apply not_true_iff_false in L. rewrite isLeapYear_spec in L.
    Z.div_mod_to_equations. lia.
Qed.

Lemma Day_MakeDate (day : Z) : Day (MakeDate day 0) = day.
Proof.
  unfold Day, MakeDate. rewrite Z.add_0_r. apply Z.div_mul. unfold msPerDay. lia.
Qed.

(** Outside the years 0..99, [new Date(year, m - 1, d)] is the day
    [d] of the month [m], counted on from the first of the month. *)
Lemma dayNumber_newDate (year m d : Z) :
  ~ (0 <= year <= 99) -> 1 <= m <= 12 ->
  dayNumber (newDate year (m - 1) d) = days_from_civil year m d.
Proof.
  intros Hy Hm. unfold dayNumber, newDate. cbn [timeValue].
  rewrite Day_MakeDate.
  replace ((0 <=? year) && (year <=? 99)) with false.
  2:{ symmetry. apply andb_false_iff.
      destruct (Z.leb_spec 0 year);
        [right; apply Z.leb_gt; lia | left; reflexivity]. }
  unfold MakeDay. cbv zeta.
  rewrite (Z.div_small (m - 1) 12), (Z.mod_small (m - 1) 12) by lia.
  replace (year + 0) with year by lia. replace (m - 1 + 1) with m by lia.
  replace d with (1 + (d - 1)) at 2 by lia.
  rewrite days_from_civil_day. lia.
Qed.

(** Day numbers and calendar fields determine each other. *)
Lemma civilOf_dayNumber (d : Date) (y m dd : Z) :
  civilOf d = (y, m, dd) <-> civil_from_days (dayNumber d) = (y, m, dd).
Proof.
  unfold civilOf, getFullYear, getMonth, getDate, YearFromTime, MonthFromTime,
    DateFromTime, dayNumber.
  destruct (civil_from_days (Day (timeValue d))) as [[y0 m0] d0].
  split; intros [= <- <- <-]; f_equal; f_equal; lia.
Qed.

Lemma civilOf_month (d : Date) (y m dd : Z) :
  civilOf d = (y, m, dd) -> getMonth d = m - 1.
Proof. unfold civilOf. intros [= _ H _]. lia. Qed.

(** Outside the years 0..99 the constructor returns the date it is
    given. *)
Lemma civilOf_newDate (year m d : Z) :
  ~ (0 <= year <= 99) -> 1 <= m <= 12 -> 1 <= d <= daysInMonth year m ->
  civilOf (newDate year (m - 1) d) = (year, m, d).
Proof.
  intros Hy Hm Hd. apply civilOf_dayNumber.
  rewrite dayNumber_newDate by assumption.
  apply civil_from_days_from_civil; assumption.
Qed.

End Calendar.

(** ** Holiday calculator *)

(** C6: the Easter calculator yields 31 March 2024, 20 April 2025 and
    5 April 2026. *)
Theorem calculateEaster_reference_years :
  civilOf (calculateEaster 2024) = (2024, 3, 31) /\
  civilOf (calculateEaster 2025) = (2025, 4, 20) /\
  civilOf (calculateEaster 2026) = (2026, 4, 5).
Proof. repeat split; vm_compute; reflexivity. Qed.

(** The calculator always returns a date at local midnight. *)
Lemma calculateEaster_midnight (year : Z) : atMidnight (calculateEaster year).
Proof. unfold calculateEaster; cbv zeta. apply newDate_midnight. Qed.

(** From the year 100 on the date returned lies in March or April of
    the year asked for. *)
Lemma calculateEaster_in_year (year : Z) :
  100 <= year ->
  exists d, civilOf (calculateEaster year) = (year, 3, d) \/
            civilOf (calculateEaster year) = (year, 4, d).
Proof.
  intro Hy. unfold calculateEaster. cbv zeta.
  set (a := Z.rem year 19).
  set (b := year / 100).
  set (c := Z.rem year 100).
  set (h := Z.rem (19 * a + b - b / 4 - (b - (b + 8) / 25 + 1) / 3 + 15) 30).
  set (l := Z.rem (32 + 2 * Z.rem b 4 + 2 * (c / 4) - h - Z.rem c 4) 7).
  set (m := (a + 11 * h + 22 * l) / 451).
  set (v := h + l - 7 * m + 114).
  assert (Ha : 0 <= a <= 18) by (subst a; Z.to_euclidean_division_equations; lia).
  assert (Hb : 1 <= b) by (subst b; Z.to_euclidean_division_equations; lia).
  assert (Hc : 0 <= c <= 99) by (subst c; Z.to_euclidean_division_equations; lia).
  assert (Hh : 0 <= h <= 29)
    by (subst h; clearbody a b; Z.to_euclidean_division_equations; lia).
  assert (Hl : 0 <= l <= 6)
    by (subst l; clearbody h c b; Z.to_euclidean_division_equations; lia).
  assert (Hm : 0 <= m <= 1)
    by (subst m; clearbody a h l; Z.to_euclidean_division_equations; lia).
  assert (Hv : 107 <= v <= 149) by (subst v; lia).
  clearbody v.
  assert (Hmonth : (v / 31 = 3 /\ 15 <= Z.rem v 31 + 1 <= 31) \/
                   (v / 31 = 4 /\ 1 <= Z.rem v 31 + 1 <= 26))
    by (Z.to_euclidean_division_equations; lia).
  exists (Z.rem v 31 + 1).
  destruct Hmonth as [[-> Hd] | [-> Hd]]; [left | right];
    apply civilOf_newDate; try lia; unfold daysInMonth; cbn; lia.
Qed.

(** ** Range rules *)

Lemma getMonth_range (d : Date) : 0 <= getMonth d <= 11.
Proof.
  unfold getMonth, MonthFromTime.
  destruct (civil_from_days_spec (Day (timeValue d))) as (y & m & dd & -> & Hm & _).
  lia.
Qed.

Lemma getDate_range (d : Date) : 1 <= getDate d <= 31.
Proof.
  unfold getDate, DateFromTime.
  destruct (civil_from_days_spec (Day (timeValue d))) as (y & m & dd & -> & _ & Hd & _).
  lia.
Qed.

Lemma padStart_twoDigits (n : Z) :
  0 <= n <= 31 -> padStart (toString n) 2 "0" = twoDigits n.
Proof.
  intro H.
  assert (Hn : n = Z.of_nat (Z.to_nat n)) by lia.
  assert (Hb : (Z.to_nat n <= 31)%nat) by lia.
  rewrite Hn. generalize dependent (Z.to_nat n). clear H.
  intros k _ Hk.
  do 32 (destruct k as [|k]; [reflexivity|]).
  lia.
Qed.

(** The string [isInRange] builds is the zero-padded [MM-DD] string. *)
Lemma isInRange_unfold (from to : string) (date : Date) :
  isInRange from to date =
  if String.leb from to
  then String.leb from (monthDayString date) && String.leb (monthDayString date) to
  else String.leb from (monthDayString date) || String.leb (monthDayString date) to.
Proof.
  unfold isInRange, monthDayString; cbv zeta.
  pose proof (getMonth_range date). pose proof (getDate_range date).
  rewrite !padStart_twoDigits by lia. reflexivity.
Qed.

(** C4: a range rule compares the target's zero-padded month-day string
    with its bounds, as an interval when [from <= to] and as the union
    of two half-lines when [from > to]; the rule 12-26..01-07 is active
    on 2025-12-31 and 2026-01-03 and inactive on 2025-06-15. *)
Theorem isInRange_spec :
  (forall (from to : string) (date : Date),
     let mmdd := monthDayString date in
     (String.leb from to = true ->
      (isRuleActive (Range from to) date (getFullYear date) = true <->
       String.leb from mmdd = true /\ String.leb mmdd to = true)) /\
     (String.leb from to = false ->
      (isRuleActive (Range from to) date (getFullYear date) = true <->
       String.leb from mmdd = true \/ String.leb mmdd to = true))) /\
  isRuleActive (Range "12-26" "01-07") (newDate 2025 11 31) 2025 = true /\
  isRuleActive (Range "12-26" "01-07") (newDate 2026 0 3) 2026 = true /\
  isRuleActive (Range "12-26" "01-07") (newDate 2025 5 15) 2025 = false.
Proof.
  split; [|repeat split; vm_compute; reflexivity].
  intros from to date mmdd. cbn [isRuleActive].
  rewrite isInRange_unfold. fold mmdd.
  split; intros ->.
  - apply andb_true_iff.
  - apply orb_true_iff.
Qed.

Lemma isInRange_spec_witness :
  String.leb "12-26" "01-07" = false /\
  (isRuleActive (Range "12-26" "01-07") (newDate 2026 0 3)
     (getFullYear (newDate 2026 0 3)) = true <->
   String.leb "12-26" (monthDayString (newDate 2026 0 3)) = true \/
   String.leb (monthDayString (newDate 2026 0 3)) "01-07" = true).
Proof.
  split; [reflexivity|].
  apply (proj1 isInRange_spec "12-26" "01-07" (newDate 2026 0 3)).
  reflexivity.
Defined.

(** ** Holiday-offset rules *)

Lemma msPerDay_scale (a b : Z) :
  (a * msPerDay <=? b * msPerDay) = (a <=? b).
Proof.
  unfold msPerDay.
  destruct (a <=? b) eqn:E;
    [apply Z.leb_le in E; apply Z.leb_le | apply Z.leb_gt in E; apply Z.leb_gt];
    lia.
Qed.

(** A window of whole days around a midnight anchor, tested on a
    midnight target, is a comparison of day numbers. *)
Lemma day_window_midnight (anchor date : Date) (lo hi : Z) :
  atMidnight anchor -> atMidnight date ->
  geb date (setDate anchor (getDate anchor + lo))
  && leb date (setDate anchor (getDate anchor + hi)) = true <->
  dayNumber anchor + lo <= dayNumber date <= dayNumber anchor + hi.
Proof.
  intros Ha Hd. unfold geb, leb.
  rewrite !setDate_getDate_plus.
  rewrite (atMidnight_timeValue _ Ha), (atMidnight_timeValue _ Hd).
  rewrite <- !Z.mul_add_distr_r, !msPerDay_scale.
  rewrite andb_true_iff, !Z.leb_le. lia.
Qed.

(** C3 (as the code has it): on a target at local midnight an Easter
    offset rule is active exactly when the target's day lies between
    Easter + start and Easter + end, both included, for the Easter of
    the target's year; the window is empty when start > end.  The rule
    with offsets -2..0 is active on 18, 19 and 20 April 2025 and
    inactive on 21 April 2025. *)
Theorem isHolidayOffsetActive_window :
  (forall (start end_ : Z) (date : Date),
     atMidnight date ->
     let holidayDate := calculateEaster (getFullYear date) in
     (isRuleActive (HolidayOffset "easter" start end_) date (getFullYear date) = true <->
      dayNumber holidayDate + start <= dayNumber date <= dayNumber holidayDate + end_)) /\
  isRuleActive (HolidayOffset "easter" (-2) 0) (newDate 2025 3 18) 2025 = true /\
  isRuleActive (HolidayOffset "easter" (-2) 0) (newDate 2025 3 19) 2025 = true /\
  isRuleActive (HolidayOffset "easter" (-2) 0) (newDate 2025 3 20) 2025 = true /\
  isRuleActive (HolidayOffset "easter" (-2) 0) (newDate 2025 3 21) 2025 = false.
Proof.
  split; [|repeat split; vm_compute; reflexivity].
  intros start end_ date Hd holidayDate.
  cbn [isRuleActive]. unfold isHolidayOffsetActive.
  change (String.eqb "easter" "easter") with true. cbv iota zeta.
  apply day_window_midnight; [apply calculateEaster_midnight | exact Hd].
Qed.

Lemma isHolidayOffsetActive_window_witness :
  atMidnight (newDate 2025 3 19) /\
  (isRuleActive (HolidayOffset "easter" (-2) 0) (newDate 2025 3 19)
     (getFullYear (newDate 2025 3 19)) = true <->
   dayNumber (calculateEaster (getFullYear (newDate 2025 3 19))) + (-2)
   <= dayNumber (newDate 2025 3 19)
   <= dayNumber (calculateEaster (getFullYear (newDate 2025 3 19))) + 0).
Proof.
  split; [apply newDate_midnight|].
  apply (proj1 isHolidayOffsetActive_window (-2) 0 (newDate 2025 3 19)).
  apply newDate_midnight.
Defined.

(** C3 as stated fails when start > end: with offsets 0 and -2 the day
    19 April 2025 lies in the window from Easter + min to Easter + max,
    and the rule is inactive. *)
Lemma isHolidayOffsetActive_no_min_max :
  let date := newDate 2025 3 19 in
  let holidayDate := calculateEaster (getFullYear date) in
  (dayNumber holidayDate + Z.min 0 (-2) <= dayNumber date
   <= dayNumber holidayDate + Z.max 0 (-2)) /\
  isRuleActive (HolidayOffset "easter" 0 (-2)) date (getFullYear date) = false.
Proof. vm_compute. repeat split; discriminate. Qed.

(** ** Nth-weekday rules *)

(** For a month 1..12, outside the years 0..99, a day 1..31 stays inside
    the month exactly when the month has that many days. *)
Lemma inMonth_spec (y m day : Z) :
  ~ (0 <= y <= 99) -> 1 <= m <= 12 -> 1 <= day <= 31 ->
  inMonth y m day = (day <=? daysInMonth y m).
Proof.
  intros Hy Hm Hday. unfold inMonth.
  destruct (day <=? daysInMonth y m) eqn:E;
    [apply Z.leb_le in E | apply Z.leb_gt in E].
  - pose proof (civilOf_newDate y m day Hy Hm ltac:(lia)) as C.
    apply civilOf_month in C. apply Z.eqb_eq. lia.
  - pose proof (daysInMonth_range y m) as R.
    assert (N : dayNumber (newDate y (m - 1) day) =
                if m =? 12
                then days_from_civil (y + 1) 1 (day - daysInMonth y m)
                else days_from_civil y (m + 1) (day - daysInMonth y m)).
    { rewrite dayNumber_newDate by assumption.
      replace day with (daysInMonth y m + 1 + (day - daysInMonth y m - 1))
        at 1 by lia.
      rewrite days_from_civil_day, days_from_civil_next_month by assumption.
      destruct (m =? 12); rewrite <- days_from_civil_day; f_equal; lia. }
    apply Z.eqb_neq. intro G.
    assert (C : exists y2 m2 d2,
               civilOf (newDate y (m - 1) day) = (y2, m2, d2) /\ m2 <> m).
    { destruct (m =? 12) eqn:E12;
        [apply Z.eqb_eq in E12 | apply Z.eqb_neq in E12].
      - exists (y + 1), 1, (day - daysInMonth y m). split; [|lia].
        apply civilOf_dayNumber. rewrite N.
        apply civil_from_days_from_civil; [lia|].
        pose proof (daysInMonth_range (y + 1) 1). lia.
      - exists y, (m + 1), (day - daysInMonth y m). split; [|lia].
        apply civilOf_dayNumber. rewrite N.
        apply civil_from_days_from_civil; [lia|].
        pose proof (daysInMonth_range y (m + 1)). lia. }
    destruct C as (y2 & m2 & d2 & C & NE). apply civilOf_month in C. lia.
Qed.

(** The loop of [isNthWeekdayActive] then visits the days of the month
    and no other. *)
Lemma monthDays_days1to31 (y m : Z) :
  ~ (0 <= y <= 99) -> 1 <= m <= 12 ->
  monthDays y m days1to31 =
  map Z.of_nat (seq 1 (Z.to_nat (daysInMonth y m))).
Proof.
  intros Hy Hm.
  assert (D : daysInMonth y m = 28 \/ daysInMonth y m = 29 \/
              daysInMonth y m = 30 \/ daysInMonth y m = 31).
  { unfold daysInMonth.
    destruct (m =? 2); [destruct (isLeapYear y); lia|].
    destruct ((m =? 4) || (m =? 6) || (m =? 9) || (m =? 11)); lia. }
  unfold days1to31.
  cbv [seq map Z.of_nat Pos.of_succ_nat Pos.succ monthDays].
  rewrite !(inMonth_spec y m) by (try assumption; lia).
  destruct D as [-> | [-> | [-> | ->]]]; reflexivity.
Qed.

Lemma findNthWeekday_occurrences (year month weekday n : Z) (days : list Z) :
  forall count,
    findNthWeekday year month weekday n days count =
    if count <? n
    then option_map (newDate year (month - 1))
           (nth_error (occurrences year month weekday days)
                      (Z.to_nat (n - count - 1)))
    else None.
Proof.
  unfold occurrences.
  induction days as [|day rest IH]; intro count; cbn [findNthWeekday monthDays].
  - cbn [filter]. destruct (count <? n); [|reflexivity].
    destruct (Z.to_nat (n - count - 1)); reflexivity.
  - unfold inMonth.
    destruct (getMonth (newDate year (month - 1) day) =? month - 1); cbn [negb].
    + cbn [filter].
      destruct (getDay (newDate year (month - 1) day) =? weekday).
      * destruct (count + 1 =? n) eqn:E.
        -- apply Z.eqb_eq in E.
           replace (count <? n) with true by (symmetry; apply Z.ltb_lt; lia).
           replace (n - count - 1) with 0 by lia. reflexivity.
        -- apply Z.eqb_neq in E. rewrite IH.
           destruct (count <? n) eqn:L; [apply Z.ltb_lt in L | apply Z.ltb_ge in L].
           ++ replace (count + 1 <? n) with true by (symmetry; apply Z.ltb_lt; lia).
              replace (Z.to_nat (n - count - 1))
                with (S (Z.to_nat (n - (count + 1) - 1))) by lia.
              reflexivity.
           ++ replace (count + 1 <? n) with false by (symmetry; apply Z.ltb_ge; lia).
              reflexivity.
      * apply IH.
    + cbn [filter]. destruct (count <? n); [|reflexivity].
      destruct (Z.to_nat (n - count - 1)); reflexivity.
Qed.

(** The anchor is the [n]-th day of the month, counted from 1, that
    falls on the weekday; there is none when [n] is not positive or the
    month has fewer such days. *)
Lemma nthWeekdayAnchor_nth_occurrence (year month weekday n : Z) :
  nthWeekdayAnchor year month weekday n =
  if 0 <? n
  then option_map (newDate year (month - 1))
         (nth_error (occurrences year month weekday days1to31)
                    (Z.to_nat (n - 1)))
  else None.
Proof.
  unfold nthWeekdayAnchor. rewrite findNthWeekday_occurrences.
  replace (n - 0 - 1) with (n - 1) by lia. reflexivity.
Qed.

(** For a month 1..12, outside the years 0..99, these are the days of
    the month of that year. *)
Lemma nthWeekdayAnchor_in_month (year month weekday n : Z) :
  ~ (0 <= year <= 99) -> 1 <= month <= 12 ->
  nthWeekdayAnchor year month weekday n =
  if 0 <? n
  then option_map (newDate year (month - 1))
         (nth_error
            (filter (fun day => getDay (newDate year (month - 1) day) =? weekday)
                    (map Z.of_nat (seq 1 (Z.to_nat (daysInMonth year month)))))
            (Z.to_nat (n - 1)))
  else None.
Proof.
  intros Hy Hm. rewrite nthWeekdayAnchor_nth_occurrence.
  unfold occurrences. rewrite monthDays_days1to31 by assumption. reflexivity.
Qed.

Lemma nthWeekdayAnchor_too_few (year month weekday n : Z) :
  (Z.of_nat (List.length (occurrences year month weekday days1to31)) < n) ->
  nthWeekdayAnchor year month weekday n = None.
Proof.
  intro H. rewrite nthWeekdayAnchor_nth_occurrence.
  destruct (0 <? n) eqn:E; [|reflexivity].
  apply Z.ltb_lt in E.
  replace (nth_error _ _) with (@None Z); [reflexivity|].
  symmetry. apply nth_error_None. lia.
Qed.

Lemma findNthWeekday_midnight (year month weekday n : Z) (days : list Z) :
  forall count anchor,
    findNthWeekday year month weekday n days count = Some anchor ->
    atMidnight anchor.
Proof.
  induction days as [|day rest IH]; intros count anchor; cbn [findNthWeekday].
  - discriminate.
  - destruct (negb _); [discriminate|].
    destruct (getDay _ =? weekday).
    + destruct (count + 1 =? n).
      * intros [= <-]. apply newDate_midnight.
      * apply IH.
    + apply IH.
Qed.

(** Without an anchor in the target's year the rule is inactive. *)
Lemma isNthWeekdayActive_no_anchor (month weekday n : Z) (duration : option Z)
  (date : Date) :
  nthWeekdayAnchor (getFullYear date) month weekday n = None ->
  isRuleActive (NthWeekday month weekday n duration) date (getFullYear date) = false.
Proof.
  unfold nthWeekdayAnchor. intro H. cbn [isRuleActive].
  unfold isNthWeekdayActive. cbv zeta. rewrite H. reflexivity.
Qed.

(** With a duration that is absent or 1 the rule is active exactly on
    the anchor's day, at any time of that day. *)
Lemma isNthWeekdayActive_single_day (month weekday n : Z) (duration : option Z)
  (date : Date) :
  duration = None \/ duration = Some 1 ->
  isRuleActive (NthWeekday month weekday n duration) date (getFullYear date) = true <->
  exists anchor,
    nthWeekdayAnchor (getFullYear date) month weekday n = Some anchor /\
    dayNumber date = dayNumber anchor.
Proof.
  intro Hdur. cbn [isRuleActive]. unfold isNthWeekdayActive, nthWeekdayAnchor.
  cbv zeta.
  assert (E : durationOr1 duration = 1) by (destruct Hdur; subst; reflexivity).
  rewrite E. change (1 <? 1) with false. cbv iota.
  destruct (findNthWeekday _ _ _ _ _ _) as [anchor|].
  - rewrite toDateString_same_day. split.
    + intro H. exists anchor. auto.
    + intros (a & [= <-] & H). exact H.
  - split; [discriminate|]. intros (a & [=] & _).
Qed.

(** With a duration above 1 and a target at local midnight the rule is
    active exactly on the days from [duration / 2] before the anchor to
    [duration - duration / 2 - 1] after it. *)
Lemma isNthWeekdayActive_window_midnight (month weekday n duration : Z)
  (date : Date) :
  1 < duration -> atMidnight date ->
  isRuleActive (NthWeekday month weekday n (Some duration)) date (getFullYear date) = true <->
  exists anchor,
    nthWeekdayAnchor (getFullYear date) month weekday n = Some anchor /\
    dayNumber anchor - duration / 2 <= dayNumber date
    <= dayNumber anchor + (duration - duration / 2 - 1).
Proof.
  intros Hdur Hd. cbn [isRuleActive]. unfold isNthWeekdayActive, nthWeekdayAnchor.
  cbv zeta.
  assert (E : durationOr1 (Some duration) = duration).
  { cbn. replace (duration =? 0) with false by (symmetry; apply Z.eqb_neq; lia).
    reflexivity. }
  rewrite E. replace (1 <? duration) with true by (symmetry; apply Z.ltb_lt; lia).
  cbv iota.
  destruct (findNthWeekday _ _ _ _ _ _) as [anchor|] eqn:F.
  - replace (getDate anchor - duration / 2)
      with (getDate anchor + - (duration / 2)) by lia.
    rewrite day_window_midnight;
      [|eapply findNthWeekday_midnight; exact F | exact Hd].
    split.
    + intro H. exists anchor. split; [reflexivity | lia].
    + intros (a & [= <-] & H). lia.
  - split; [discriminate|]. intros (a & [=] & _).
Qed.

(** The fourth Thursday of November 2025 is 27 November, and the
    one-day rule is active in 2025 on that day only. *)
Lemma thanksgiving_2025 (date : Date) :
  getFullYear date = 2025 ->
  isRuleActive (NthWeekday 11 4 4 (Some 1)) date (getFullYear date) = true <->
  civilOf date = (2025, 11, 27).
Proof.
  intro Hy. rewrite isNthWeekdayActive_single_day by (right; reflexivity).
  rewrite Hy.
  assert (A : nthWeekdayAnchor 2025 11 4 4 = Some (newDate 2025 10 27))
    by (vm_compute; reflexivity).
  rewrite A, civilOf_dayNumber.
  assert (N : dayNumber (newDate 2025 10 27) = 20419) by (vm_compute; reflexivity).
  split.
  - intros (a & [= <-] & H). rewrite H, N. vm_compute. reflexivity.
  - intro H. exists (newDate 2025 10 27). split; [reflexivity|].
    rewrite N.
    destruct (civil_from_days_spec (dayNumber date)) as (y & m & d & E & _ & _ & B).
    rewrite E in H. injection H as -> -> ->. rewrite <- B. vm_compute. reflexivity.
Qed.

(** C5: the three-day window around the fourth Thursday of November
    2025, the 27th, runs from 26 to 28 November.  The rule is active at
    noon of the first day and at midnight of the last day, and inactive
    at noon of the last day, which lies in the window: the end of the
    window is compared as an instant, so its last day is cut off after
    midnight. *)
Theorem isNthWeekdayActive_last_day_cut :
  let rule := NthWeekday 11 4 4 (Some 3) in
  let anchor := newDate 2025 10 27 in
  let noon := newDateTime 2025 10 28 12 0 in
  nthWeekdayAnchor 2025 11 4 4 = Some anchor /\
  civilOf anchor = (2025, 11, 27) /\
  civilOf noon = (2025, 11, 28) /\
  dayNumber anchor - 3 / 2 <= dayNumber noon
  <= dayNumber anchor + (3 - 3 / 2 - 1) /\
  isRuleActive rule (newDateTime 2025 10 26 12 0) 2025 = true /\
  isRuleActive rule (newDate 2025 10 28) 2025 = true /\
  isRuleActive rule noon (getFullYear noon) = false.
Proof. vm_compute. repeat split; discriminate. Qed.

(** The same cut on a holiday-offset rule: Easter Sunday 2025 at noon
    is outside the window -2..0. *)
Lemma isHolidayOffsetActive_last_day_cut :
  let noon := newDateTime 2025 3 20 12 0 in
  civilOf noon = (2025, 4, 20) /\
  isRuleActive (HolidayOffset "easter" (-2) 0) noon (getFullYear noon) = false.
Proof. vm_compute. split; reflexivity. Qed.

(** ** Sorting *)

Lemma JsNum_eqb_eq (a b : JsNum) : JsNum_eqb a b = true <-> a = b.
Proof.
  destruct a, b; cbn; try (split; [discriminate | intros [=]]);
    try (split; reflexivity).
  rewrite Z.eqb_eq. split; [intros -> | intros [= ->]]; reflexivity.
Qed.

Lemma JsNum_positive_sub (a b : JsNum) :
  isDuration a -> isDuration b ->
  JsNum_positive (JsNum_sub a b) = negb (JsNum_leb a b).
Proof.
  destruct a, b; cbn; try contradiction; intros _ _; try reflexivity.
  destruct (z <=? z0) eqn:E;
    [apply Z.leb_le in E; apply Z.ltb_ge | apply Z.leb_gt in E; apply Z.ltb_lt];
    lia.
Qed.

Lemma JsNum_positive_sub_diag (a : JsNum) :
  JsNum_positive (JsNum_sub a a) = false.
Proof. destruct a; cbn; try reflexivity. apply Z.ltb_ge. lia. Qed.

Lemma JsNum_leb_trans (a b c : JsNum) :
  JsNum_leb a b = true -> JsNum_leb b c = true -> JsNum_leb a c = true.
Proof.
  destruct a, b, c; cbn; try discriminate; try reflexivity.
  rewrite !Z.leb_le. lia.
Qed.

Lemma JsNum_leb_total (a b : JsNum) :
  isDuration a -> isDuration b ->
  JsNum_leb a b = false -> JsNum_leb b a = true.
Proof.
  destruct a, b; cbn; try contradiction; intros _ _; try discriminate;
    try reflexivity.
  rewrite Z.leb_gt, Z.leb_le. lia.
Qed.

Section SortFacts.

Context {A : Type} (key : A -> JsNum).

Lemma In_insertKey (x z : A) (l : list A) :
  In z (insertKey key x l) <-> z = x \/ In z l.
Proof.
  induction l as [|y ys IH]; cbn.
  - intuition auto.
  - destruct (JsNum_positive _); cbn; rewrite ?IH; intuition auto.
Qed.

Lemma In_sortKey (z : A) (l : list A) : In z (sortKey key l) <-> In z l.
Proof.
  induction l as [|x xs IH]; cbn; [reflexivity|].
  rewrite In_insertKey, IH. intuition auto.
Qed.

Lemma sortKey_nil (l : list A) : sortKey key l = [] -> l = [].
Proof.
  destruct l as [|x xs]; [reflexivity|]. intro H.
  assert (I : In x (sortKey key (x :: xs))) by (apply In_sortKey; left; reflexivity).
  rewrite H in I. destruct I.
Qed.

Lemma sortKey_Permutation (l : list A) : Permutation (sortKey key l) l.
Proof.
  induction l as [|x xs IH]; cbn; [constructor|].
  transitivity (x :: sortKey key xs); [|constructor; exact IH].
  generalize (sortKey key xs). clear. intro l.
  induction l as [|y ys IH]; cbn; [reflexivity|].
  destruct (JsNum_positive _); [|reflexivity].
  rewrite IH. apply perm_swap.
Qed.

Lemma insertBy_insertKey (cmp : A -> A -> Completion JsNum) (x : A)
  (l : list A) :
  (forall y, In y l -> cmp x y = Normal (JsNum_sub (key x) (key y))) ->
  insertBy cmp x l = Normal (insertKey key x l).
Proof.
  induction l as [|y ys IH]; intro H; cbn; [reflexivity|].
  rewrite (H y) by (left; reflexivity). cbn.
  destruct (JsNum_positive _); [|reflexivity].
  rewrite IH by (intros; apply H; right; assumption). reflexivity.
Qed.

(** When the comparator is the difference of the keys on the elements
    of the list, the sort returns and its result is [sortKey]. *)
Lemma sortBy_sortKey (cmp : A -> A -> Completion JsNum) (l : list A) :
  (forall a b, In a l -> In b l -> cmp a b = Normal (JsNum_sub (key a) (key b))) ->
  sortBy cmp l = Normal (sortKey key l).
Proof.
  induction l as [|x xs IH]; intro H; cbn; [reflexivity|].
  rewrite IH by (intros; apply H; right; assumption). cbn.
  apply insertBy_insertKey. intros y Hy.
  apply H; [left; reflexivity | right; apply In_sortKey; exact Hy].
Qed.

Lemma insertKey_sorted (x : A) (l : list A) :
  isDuration (key x) -> Forall (fun y => isDuration (key y)) l ->
  StronglySorted (keyLe key) l -> StronglySorted (keyLe key) (insertKey key x l).
Proof.
  intros Hx Hl Hs. induction Hs as [|y ys Hs IH Hy]; cbn.
  - repeat constructor.
  - inversion Hl as [|? ? Dy Dys]; subst.
    rewrite JsNum_positive_sub by assumption.
    destruct (JsNum_leb (key x) (key y)) eqn:E; cbn.
    + constructor; [constructor; assumption|].
      constructor; [exact E|].
      rewrite Forall_forall in Hy |- *. intros z Hz.
      eapply JsNum_leb_trans; [exact E | apply Hy; exact Hz].
    + constructor; [apply IH; assumption|].
      rewrite Forall_forall in Hy |- *. intros z Hz.
      apply In_insertKey in Hz. destruct Hz as [-> | Hz].
      * apply JsNum_leb_total; assumption.
      * apply Hy; exact Hz.
Qed.

(** The result is in non-decreasing order of the keys. *)
Lemma sortKey_sorted (l : list A) :
  Forall (fun y => isDuration (key y)) l -> StronglySorted (keyLe key) (sortKey key l).
Proof.
  induction l as [|x xs IH]; intro H; cbn; [constructor|].
  inversion H as [|? ? Hx Hxs]; subst.
  apply insertKey_sorted; [exact Hx | | apply IH; exact Hxs].
  rewrite Forall_forall in Hxs |- *. intros y Hy.
  apply Hxs. apply (proj1 (In_sortKey y xs)). exact Hy.
Qed.

Lemma insertKey_stable (k : JsNum) (x : A) (l : list A) :
  filter (hasKey key k) (insertKey key x l) = filter (hasKey key k) (x :: l).
Proof.
  induction l as [|y ys IH]; [reflexivity|]. cbn [insertKey].
  destruct (JsNum_positive _) eqn:P; [|reflexivity].
  cbn [filter] in *. rewrite IH.
  destruct (hasKey key k x) eqn:Kx, (hasKey key k y) eqn:Ky; try reflexivity.
  unfold hasKey in Kx, Ky. apply JsNum_eqb_eq in Kx, Ky.
  rewrite Kx, <- Ky, JsNum_positive_sub_diag in P. discriminate.
Qed.

(** The sort is stable: the elements of each key keep their order. *)
Lemma sortKey_stable (k : JsNum) (l : list A) :
  filter (hasKey key k) (sortKey key l) = filter (hasKey key k) l.
Proof.
  induction l as [|x xs IH]; [reflexivity|]. cbn [sortKey].
  rewrite insertKey_stable. cbn [filter]. rewrite IH. reflexivity.
Qed.

End SortFacts.

Lemma JsNum_eqb_refl (a : JsNum) : JsNum_eqb a a = true.
Proof. apply JsNum_eqb_eq. reflexivity. Qed.

Lemma JsNum_leb_antisym (a b : JsNum) :
  JsNum_leb a b = true -> JsNum_leb b a = true -> a = b.
Proof.
  destruct a, b; cbn; try discriminate; try reflexivity.
  rewrite !Z.leb_le. intros. f_equal. lia.
Qed.

Section SortUnique.

Context {A : Type} (key : A -> JsNum).

Lemma filter_hasKey_nil (l : list A) :
  (forall k, filter (hasKey key k) l = []) -> l = [].
Proof.
  destruct l as [|b l]; [reflexivity|]. intro H.
  specialize (H (key b)). cbn in H. unfold hasKey in H at 1.
  rewrite JsNum_eqb_refl in H. discriminate.
Qed.

Lemma In_filter_hasKey (x : A) (l : list A) :
  In x l -> In x (filter (hasKey key (key x)) l).
Proof.
  intro H. apply filter_In. split; [exact H|].
  unfold hasKey. apply JsNum_eqb_refl.
Qed.

(** Two sorted lists with the same elements of each key, in the same
    order, are equal. *)
Lemma stable_sorted_unique (l1 : list A) :
  forall l2,
    StronglySorted (keyLe key) l1 -> StronglySorted (keyLe key) l2 ->
    (forall k, filter (hasKey key k) l1 = filter (hasKey key k) l2) ->
    l1 = l2.
Proof.
  induction l1 as [|a l1 IH]; intros l2 S1 S2 H.
  - symmetry. apply filter_hasKey_nil. intro k. rewrite <- H. reflexivity.
  - destruct l2 as [|b l2].
    + apply filter_hasKey_nil. intro k. rewrite H. reflexivity.
    + inversion S1 as [|? ? S1' F1]; subst.
      inversion S2 as [|? ? S2' F2]; subst.
      rewrite Forall_forall in F1, F2.
      assert (K : key a = key b).
      { assert (Ia : In a (b :: l2)).
        { pose proof (In_filter_hasKey a (a :: l1) (or_introl eq_refl)) as I.
          rewrite H in I. apply filter_In in I. apply I. }
        assert (Ib : In b (a :: l1)).
        { pose proof (In_filter_hasKey b (b :: l2) (or_introl eq_refl)) as I.
          rewrite <- H in I. apply filter_In in I. apply I. }
        destruct Ia as [-> | Ia]; [reflexivity|].
        destruct Ib as [-> | Ib]; [reflexivity|].
        apply JsNum_leb_antisym; [apply F1, Ib | apply F2, Ia]. }
      assert (E : a = b).
      { specialize (H (key a)). cbn [filter] in H.
        assert (Ha : hasKey key (key a) a = true) by apply JsNum_eqb_refl.
        assert (Hb : hasKey key (key a) b = true)
          by (unfold hasKey; rewrite <- K; apply JsNum_eqb_refl).
        rewrite Ha, Hb in H. congruence. }
      subst b. f_equal. apply IH; [assumption .. |].
      intro k. specialize (H k). cbn [filter] in H.
      destruct (hasKey key k a); congruence.
Qed.

(** Hence any sort that is stable and orders by the keys returns
    [sortKey]. *)
Lemma sortKey_unique (l sorted : list A) :
  Forall (fun y => isDuration (key y)) l ->
  StronglySorted (keyLe key) sorted ->
  (forall k, filter (hasKey key k) sorted = filter (hasKey key k) l) ->
  sorted = sortKey key l.
Proof.
  intros D S H. apply stable_sorted_unique.
  - exact S.
  - apply sortKey_sorted. exact D.
  - intro k. rewrite sortKey_stable. apply H.
Qed.

End SortUnique.

(** ** Resolution engine *)

Section FindByName.

Context {A : Type} (nameOf : A -> string).

Lemma findByName_Some (s : string) (l : list A) (r : A) :
  findByName nameOf s l = Some r -> In r l /\ nameOf r = s.
Proof.
  unfold findByName. intro H. apply find_some in H.
  destruct H as [H1 H2]. apply String.eqb_eq in H2. auto.
Qed.

Lemma findByName_None (s : string) (l : list A) :
  findByName nameOf s l = None -> forall r, In r l -> nameOf r <> s.
Proof.
  unfold findByName. intros H r Hr E.
  pose proof (find_none _ _ H r Hr) as N. cbn in N.
  apply String.eqb_eq in E. congruence.
Qed.

Lemma findByName_In (l : list A) (r : A) :
  In r l -> exists r', findByName nameOf (nameOf r) l = Some r'.
Proof.
  intro H. destruct (findByName nameOf (nameOf r) l) as [r'|] eqn:E.
  - exists r'. reflexivity.
  - exfalso. exact (findByName_None _ _ E r H eq_refl).
Qed.

Lemma findByName_NoDup (l : list A) (r : A) :
  NoDup (map nameOf l) -> In r l -> findByName nameOf (nameOf r) l = Some r.
Proof.
  unfold findByName.
  induction l as [|x xs IH]; intros N H; [destruct H|].
  cbn in N. inversion N as [|? ? Hx Hxs]; subst. cbn [find].
  destruct H as [-> | H].
  - rewrite String.eqb_refl. reflexivity.
  - destruct (String.eqb (nameOf x) (nameOf r)) eqn:E.
    + apply String.eqb_eq in E. exfalso. apply Hx. rewrite E.
      apply in_map. exact H.
    + apply IH; assumption.
Qed.

End FindByName.

Lemma In_activeRulesOf (config : ThemeRulesConfig) (date : Date)
  (options : ResolverOptions) (r : TaggedRule) :
  In r (activeRulesOf config date options) <->
  In r (allRulesOf config) /\
  isAvailable (enabledCulturesOf options) (userRegion options) r = true /\
  isRuleActive (ThemeRule.rule (fst r)) date (getFullYear date) = true.
Proof.
  unfold activeRulesOf, availableRulesOf. rewrite !filter_In. tauto.
Qed.

Lemma In_matchingThemesOf (config : ThemeRulesConfig) (date : Date)
  (options : ResolverOptions) (t : ResolvedTheme.t) :
  In t (matchingThemesOf config date options) <->
  exists r, In r (activeRulesOf config date options) /\ t = toResolved r.
Proof.
  unfold matchingThemesOf. cbv zeta. fold (activeRulesOf config date options).
  rewrite in_map_iff. split; intros (r & H1 & H2); exists r; auto.
Qed.

(** On the matches the comparator returns the difference of the keys:
    both lookups succeed, because every match carries the name of a
    catalog rule. *)
Lemma compareThemes_matching (config : ThemeRulesConfig) (date : Date)
  (options : ResolverOptions) (a b : ResolvedTheme.t) :
  In a (matchingThemesOf config date options) ->
  In b (matchingThemesOf config date options) ->
  compareThemes (allRulesOf config) (getFullYear date) a b =
  Normal (JsNum_sub (keyOf (allRulesOf config) (getFullYear date) a)
                    (keyOf (allRulesOf config) (getFullYear date) b)).
Proof.
  intros Ha Hb.
  apply (proj1 (In_matchingThemesOf _ _ _ _)) in Ha.
  apply (proj1 (In_matchingThemesOf _ _ _ _)) in Hb.
  destruct Ha as (ra & Ha & ->), Hb as (rb & Hb & ->).
  apply (proj1 (In_activeRulesOf _ _ _ _)) in Ha.
  apply (proj1 (In_activeRulesOf _ _ _ _)) in Hb.
  destruct Ha as (Ha & _), Hb as (Hb & _).
  destruct (findByName_In taggedName _ _ Ha) as (ra' & Ea).
  destruct (findByName_In taggedName _ _ Hb) as (rb' & Eb).
  unfold compareThemes, keyOf. cbv zeta.
  change (ResolvedTheme.name (toResolved ra)) with (taggedName ra).
  change (ResolvedTheme.name (toResolved rb)) with (taggedName rb).
  rewrite Ea, Eb. reflexivity.
Qed.

(** Resolution never throws. *)
Lemma resolveThemesForDate_returns (config : ThemeRulesConfig) (date : Date)
  (options : ResolverOptions) :
  resolveThemesForDate config date options =
  Normal (resolvedThemes config date options).
Proof.
  unfold resolveThemesForDate, resolvedThemes. cbv zeta.
  rewrite (sortBy_sortKey (keyOf (allRulesOf config) (getFullYear date)))
    by (intros a b Ha Hb; apply (compareThemes_matching config date options);
        assumption).
  cbn [bind]. destruct (sortKey _ _); reflexivity.
Qed.

Lemma resolvedThemes_no_match (config : ThemeRulesConfig) (date : Date)
  (options : ResolverOptions) :
  matchingThemesOf config date options = [] ->
  resolvedThemes config date options = fallbackOf config.
Proof. unfold resolvedThemes. intros ->. reflexivity. Qed.

Lemma resolvedThemes_match (config : ThemeRulesConfig) (date : Date)
  (options : ResolverOptions) :
  matchingThemesOf config date options <> [] ->
  resolvedThemes config date options =
  sortKey (keyOf (allRulesOf config) (getFullYear date))
          (matchingThemesOf config date options).
Proof.
  unfold resolvedThemes. intro H.
  destruct (sortKey _ _) eqn:E; [|reflexivity].
  apply sortKey_nil in E. contradiction.
Qed.

(** Every rule that is available and active has its entry in the
    result. *)
Lemma active_rule_resolved (config : ThemeRulesConfig) (date : Date)
  (options : ResolverOptions) (r : TaggedRule) :
  In r (activeRulesOf config date options) ->
  In (toResolved r) (resolvedThemes config date options).
Proof.
  intro H.
  assert (M : In (toResolved r) (matchingThemesOf config date options))
    by (apply In_matchingThemesOf; exists r; auto).
  rewrite resolvedThemes_match by (intro E; rewrite E in M; destruct M).
  apply In_sortKey. exact M.
Qed.

(** Every entry of the result is the entry of an available, active rule
    or the fallback entry. *)
Lemma resolved_origin (config : ThemeRulesConfig) (date : Date)
  (options : ResolverOptions) (t : ResolvedTheme.t) :
  In t (resolvedThemes config date options) ->
  (exists r, In r (activeRulesOf config date options) /\ t = toResolved r) \/
  (matchingThemesOf config date options = [] /\ In t (fallbackOf config)).
Proof.
  intro H.
  destruct (matchingThemesOf config date options) eqn:E.
  - right. split; [reflexivity|].
    rewrite resolvedThemes_no_match in H by exact E. exact H.
  - left. rewrite resolvedThemes_match in H by (rewrite E; discriminate).
    apply (proj1 (In_sortKey _ _ _)) in H.
    apply (proj1 (In_matchingThemesOf _ _ _ _)). exact H.
Qed.

Lemma fallbackOf_spec (config : ThemeRulesConfig) :
  (exists e, In e (everyday config) /\ ThemeRule.name e = "everyday" /\
             fallbackOf config =
             [ResolvedTheme.mk "everyday" CatEveryday
                (ThemeRule.rule e) (ThemeRule.metadata e)]) \/
  ((forall e, In e (everyday config) -> ThemeRule.name e <> "everyday") /\
   fallbackOf config = []).
Proof.
  unfold fallbackOf.
  destruct (findByName ThemeRule.name "everyday" (everyday config)) as [e|] eqn:E.
  - left. exists e. apply findByName_Some in E. tauto.
  - right. split; [|reflexivity]. exact (findByName_None _ _ _ E).
Qed.

(** C8: both operations return; the primary theme is the first element
    of the resolved list, or none when the list is empty; and the list
    is empty exactly when no rule matches and the everyday list has no
    rule named everyday. *)
Theorem resolvePrimaryThemeForDate_spec (config : ThemeRulesConfig)
  (date : Date) (options : ResolverOptions) :
  exists themes,
    resolveThemesForDate config date options = Normal themes /\
    resolvePrimaryThemeForDate config date options = Normal (hd_error themes) /\
    (themes = [] <->
     matchingThemesOf config date options = [] /\
     forall e, In e (everyday config) -> ThemeRule.name e <> "everyday").
Proof.
  exists (resolvedThemes config date options).
  split; [apply resolveThemesForDate_returns|]. split.
  - unfold resolvePrimaryThemeForDate.
    rewrite resolveThemesForDate_returns. cbn [bind].
    destruct (resolvedThemes config date options); reflexivity.
  - split.
    + intro H.
      destruct (matchingThemesOf config date options) eqn:E.
      * split; [reflexivity|].
        rewrite resolvedThemes_no_match in H by exact E.
        destruct (fallbackOf_spec config) as [(e & _ & _ & F) | [N _]];
          [congruence | exact N].
      * rewrite resolvedThemes_match in H by (rewrite E; discriminate).
        apply sortKey_nil in H. congruence.
    + intros [M N]. rewrite resolvedThemes_no_match by exact M.
      destruct (fallbackOf_spec config) as [(e & I & Hn & _) | [_ F]];
        [exfalso; exact (N e I Hn) | exact F].
Qed.

Lemma In_tag (c c' : Category) (r : ThemeRule.t) (l : list ThemeRule.t) :
  In (r, c) (map (tag c') l) <-> c = c' /\ In r l.
Proof.
  rewrite in_map_iff. unfold tag. split.
  - intros (x & [= -> ->] & H). auto.
  - intros [-> H]. exists r. auto.
Qed.

Lemma In_allRulesOf (config : ThemeRulesConfig) (r : ThemeRule.t)
  (c : Category) :
  In (r, c) (allRulesOf config) <-> In r (rulesOfCategory config c).
Proof.
  unfold allRulesOf. rewrite !in_app_iff, !In_tag.
  destruct c; cbn; split; intro H;
    repeat match goal with
           | H : _ \/ _ |- _ => destruct H
           | H : _ /\ _ |- _ => destruct H
           end;
    try discriminate; auto 6.
Qed.

Lemma isAvailable_everyday (ec : list string) (ur : option string)
  (r : TaggedRule) :
  taggedName r = "everyday" -> isAvailable ec ur r = false.
Proof. unfold isAvailable. intros ->. reflexivity. Qed.

Lemma includes_In (l : list string) (s : string) :
  includes l s = true <-> In s l.
Proof.
  unfold includes. rewrite existsb_exists. split.
  - intros (x & H & E). apply String.eqb_eq in E. subst. exact H.
  - intro H. exists s. split; [exact H | apply String.eqb_refl].
Qed.

Lemma isAvailable_spec (ec : list string) (ur : option string)
  (r : TaggedRule) :
  isAvailable ec ur r = true <->
  taggedName r <> "everyday" /\ passesEnablement ec ur (fst r).
Proof.
  unfold isAvailable, passesEnablement, taggedName.
  destruct (String.eqb (ThemeRule.name (fst r)) "everyday") eqn:E.
  - apply String.eqb_eq in E. split; [discriminate | tauto].
  - apply String.eqb_neq in E.
    destruct (ThemeRule.enabled (fst r)) as [[|]|].
    + split; [intros _; split; [exact E | discriminate] | reflexivity].
    + rewrite orb_true_iff, includes_In. split.
      * intros [H | H]; (split; [exact E|]); intros _; [left; exact H|].
        right.
        destruct (ThemeRule.region (fst r)) as [region|]; [|discriminate].
        destruct ur as [u|]; [|discriminate].
        apply andb_true_iff in H. destruct H as [H1 H2].
        apply negb_true_iff, String.eqb_neq in H1.
        apply includes_In in H2. exists region, u. auto.
      * intros [_ H]. destruct (H eq_refl) as [H1 | (region & u & -> & -> & N & I)].
        -- left; exact H1.
        -- right. apply andb_true_iff. split.
           ++ apply negb_true_iff, String.eqb_neq. exact N.
           ++ apply includes_In. exact I.
    + split; [intros _; split; [exact E | discriminate] | reflexivity].
Qed.

(** C2: when the everyday list is the single rule named everyday and
    no available rule of the seasonal, holidays or cultural lists is
    active on the date, the result is exactly the fallback entry, named
    everyday. *)
Theorem resolveThemesForDate_fallback (config : ThemeRulesConfig)
  (date : Date) (options : ResolverOptions) :
  (exists e, everyday config = [e] /\ ThemeRule.name e = "everyday") ->
  (forall r c,
     In (r, c) (allRulesOf config) -> c <> CatEveryday ->
     isAvailable (enabledCulturesOf options) (userRegion options) (r, c) = true ->
     isRuleActive (ThemeRule.rule r) date (getFullYear date) = false) ->
  exists t,
    resolveThemesForDate config date options = Normal [t] /\
    ResolvedTheme.name t = "everyday" /\
    ResolvedTheme.category t = CatEveryday /\
    (exists e, In e (everyday config) /\ ResolvedTheme.rule t = ThemeRule.rule e).
Proof.
  intros (e & He & Hn) Hnone.
  assert (M : matchingThemesOf config date options = []).
  { destruct (matchingThemesOf config date options) as [|t ts] eqn:E;
      [reflexivity | exfalso].
    assert (I : In t (matchingThemesOf config date options))
      by (rewrite E; left; reflexivity).
    apply (proj1 (In_matchingThemesOf _ _ _ _)) in I.
    destruct I as ([r c] & I & _).
    apply (proj1 (In_activeRulesOf _ _ _ _)) in I.
    destruct I as (Iall & Iav & Iact). cbn [fst] in Iact.
    destruct c;
      try (rewrite (Hnone _ _ Iall) in Iact; [discriminate .. | exact Iav];
           discriminate).
    apply (proj1 (In_allRulesOf _ _ _)) in Iall. cbn in Iall.
    rewrite He in Iall. destruct Iall as [<- | []].
    rewrite isAvailable_everyday in Iav by exact Hn. discriminate. }
  rewrite resolveThemesForDate_returns, resolvedThemes_no_match by exact M.
  unfold fallbackOf, findByName. rewrite He. cbn [find]. rewrite Hn.
  cbn. eexists. split; [reflexivity|]. cbn. repeat split.
  exists e. split; [left; reflexivity | reflexivity].
Qed.

Lemma resolveThemesForDate_fallback_witness :
  exists t,
    resolveThemesForDate sampleConfig (newDate 2025 5 15) noOptions = Normal [t] /\
    ResolvedTheme.name t = "everyday" /\
    ResolvedTheme.category t = CatEveryday /\
    (exists e, In e (everyday sampleConfig) /\
               ResolvedTheme.rule t = ThemeRule.rule e).
Proof.
  apply (resolveThemesForDate_fallback sampleConfig (newDate 2025 5 15) noOptions).
  - eexists. split; reflexivity.
  - intros r c H Hc _. cbn in H.
    repeat (destruct H as [H | H];
            [injection H as <- <-; try (vm_compute; reflexivity);
             exfalso; apply Hc; reflexivity |]).
    destruct H.
Defined.

(** C9: a holiday-offset rule whose holiday is not easter is inactive
    on every date; resolution still returns, leaves such a rule out and
    keeps the entry of every rule that is available and active. *)
Theorem unsupported_holiday_inactive (holiday : string) (start end_ : Z) :
  holiday <> "easter" ->
  (forall date year,
     isRuleActive (HolidayOffset holiday start end_) date year = false) /\
  (forall config date options,
     exists themes,
       resolveThemesForDate config date options = Normal themes /\
       (forall r, In r (allRulesOf config) ->
                  ThemeRule.rule (fst r) = HolidayOffset holiday start end_ ->
                  ~ In r (activeRulesOf config date options)) /\
       (forall r, In r (activeRulesOf config date options) ->
                  In (toResolved r) themes)).
Proof.
  intro H.
  assert (I : forall date year,
             isRuleActive (HolidayOffset holiday start end_) date year = false).
  { intros date year. cbn [isRuleActive]. unfold isHolidayOffsetActive.
    apply String.eqb_neq in H. rewrite H. reflexivity. }
  split; [exact I|].
  intros config date options. exists (resolvedThemes config date options).
  split; [apply resolveThemesForDate_returns|]. split.
  - intros r _ Hr Hin.
    apply (proj1 (In_activeRulesOf _ _ _ _)) in Hin.
    destruct Hin as (_ & _ & A). rewrite Hr, I in A. discriminate.
  - intros r Hr. apply active_rule_resolved. exact Hr.
Qed.

Lemma unsupported_holiday_inactive_witness :
  "christmas" <> "easter" /\
  forall date year,
    isRuleActive (HolidayOffset "christmas" 0 1) date year = false.
Proof.
  split; [discriminate|].
  apply (unsupported_holiday_inactive "christmas" 0 1). discriminate.
Defined.

(** C10: candidacy and fallback are keyed on the name everyday.  A rule
    named everyday, in any list, is never a candidate.  An entry named
    everyday is in the result only as the fallback, built from a rule
    named everyday of the everyday list when nothing matched.  A rule of
    the everyday list under another name is a candidate like any other:
    it is matched exactly when it passes the enablement test and its
    date rule is active, and its entry is then in the result. *)
Theorem everyday_keyed_on_name (config : ThemeRulesConfig) (date : Date)
  (options : ResolverOptions) :
  exists themes,
    resolveThemesForDate config date options = Normal themes /\
    (forall r c,
       In r (rulesOfCategory config c) -> ThemeRule.name r = "everyday" ->
       In (r, c) (allRulesOf config) /\
       ~ In (r, c) (availableRulesOf config options)) /\
    (forall t,
       In t themes -> ResolvedTheme.name t = "everyday" ->
       matchingThemesOf config date options = [] /\
       exists e,
         In e (everyday config) /\ ThemeRule.name e = "everyday" /\
         t = ResolvedTheme.mk "everyday" CatEveryday
               (ThemeRule.rule e) (ThemeRule.metadata e)) /\
    (forall r,
       In r (everyday config) -> ThemeRule.name r <> "everyday" ->
       (In (r, CatEveryday) (activeRulesOf config date options) <->
        passesEnablement (enabledCulturesOf options) (userRegion options) r /\
        isRuleActive (ThemeRule.rule r) date (getFullYear date) = true) /\
       (In (r, CatEveryday) (activeRulesOf config date options) ->
        In (toResolved (r, CatEveryday)) themes)).
Proof.
  exists (resolvedThemes config date options).
  split; [apply resolveThemesForDate_returns|].
  assert (NotEveryday : forall r,
            In r (activeRulesOf config date options) ->
            taggedName r <> "everyday").
  { intros r Hr.
    apply (proj1 (In_activeRulesOf _ _ _ _)) in Hr.
    destruct Hr as (_ & A & _).
    apply (proj1 (isAvailable_spec _ _ _)) in A. apply A. }
  split; [|split].
  - intros r c Hr Hn. split; [apply In_allRulesOf; exact Hr|].
    unfold availableRulesOf. rewrite filter_In. intros [_ A].
    rewrite isAvailable_everyday in A by exact Hn. discriminate.
  - intros t Ht Hn.
    destruct (resolved_origin _ _ _ _ Ht) as [(r & Hr & ->) | [M F]].
    + exfalso. exact (NotEveryday r Hr Hn).
    + split; [exact M|].
      destruct (fallbackOf_spec config) as [(e & I & He & E) | [_ E]];
        rewrite E in F; [|destruct F].
      destruct F as [<- | []]. exists e. auto.
  - intros r Hr Hn. split; [split|].
    + intro I. apply (proj1 (In_activeRulesOf _ _ _ _)) in I.
      destruct I as (_ & A & Act).
      apply (proj1 (isAvailable_spec _ _ _)) in A. split; [apply A | exact Act].
    + intros [P A]. apply In_activeRulesOf. split; [|split].
      * apply In_allRulesOf. exact Hr.
      * apply isAvailable_spec. split; assumption.
      * exact A.
    + apply active_rule_resolved.
Qed.

Lemma everyday_keyed_on_name_witness :
  exists themes,
    resolveThemesForDate sampleConfig (newDate 2025 5 15) noOptions = Normal themes /\
    forall t,
      In t themes -> ResolvedTheme.name t = "everyday" ->
      matchingThemesOf sampleConfig (newDate 2025 5 15) noOptions = [].
Proof.
  destruct (everyday_keyed_on_name sampleConfig (newDate 2025 5 15) noOptions)
    as (themes & R & _ & F & _).
  exists themes. split; [exact R|].
  intros t I N. exact (proj1 (F t I N)).
Defined.

(** C7 (as the code has it): a rule that is not named everyday and has
    [enabled === false] is not a candidate, and no entry of the result
    carries its name when names are unique, unless its name is in
    [enabledCultures] or its region list contains [userRegion]; a rule
    that is not named everyday and has [enabled] unset or true is always
    a candidate.  The rule named everyday is outside the filter. *)
Theorem isAvailable_opt_in (config : ThemeRulesConfig) (date : Date)
  (options : ResolverOptions) :
  exists themes,
    resolveThemesForDate config date options = Normal themes /\
    (forall r,
       In r (allRulesOf config) ->
       taggedName r <> "everyday" ->
       ThemeRule.enabled (fst r) = Some false ->
       ~ In (taggedName r) (enabledCulturesOf options) ->
       ~ (exists region u,
            ThemeRule.region (fst r) = Some region /\
            userRegion options = Some u /\ In u region) ->
       ~ In r (availableRulesOf config options) /\
       (NoDup (map taggedName (allRulesOf config)) ->
        forall t, In t themes -> ResolvedTheme.name t <> taggedName r)) /\
    (forall r,
       In r (allRulesOf config) ->
       taggedName r <> "everyday" ->
       ThemeRule.enabled (fst r) <> Some false ->
       In r (availableRulesOf config options) /\
       (isRuleActive (ThemeRule.rule (fst r)) date (getFullYear date) = true ->
        In (toResolved r) themes)).
Proof.
  exists (resolvedThemes config date options).
  split; [apply resolveThemesForDate_returns|]. split.
  - intros r Hr Hn He Hc Hreg.
    assert (NA : isAvailable (enabledCulturesOf options) (userRegion options) r
                 = false).
    { destruct (isAvailable _ _ r) eqn:A; [exfalso | reflexivity].
      apply (proj1 (isAvailable_spec _ _ _)) in A. destruct A as [_ P].
      destruct (P He) as [I | (region & u & R & U & _ & I)].
      - exact (Hc I).
      - apply Hreg. exists region, u. auto. }
    split.
    + unfold availableRulesOf. rewrite filter_In. intros [_ A]. congruence.
    + intros ND t Ht E.
      destruct (resolved_origin _ _ _ _ Ht) as [(r' & Hr' & ->) | [_ F]].
      * apply (proj1 (In_activeRulesOf _ _ _ _)) in Hr'.
        destruct Hr' as (I' & A' & _).
        change (ResolvedTheme.name (toResolved r')) with (taggedName r') in E.
        pose proof (findByName_NoDup taggedName _ _ ND I') as F1.
        pose proof (findByName_NoDup taggedName _ _ ND Hr) as F2.
        rewrite E in F1. rewrite F1 in F2. injection F2 as ->. congruence.
      * destruct (fallbackOf_spec config) as [(e & _ & _ & Ef) | [_ Ef]];
          rewrite Ef in F; [|destruct F].
        destruct F as [<- | []]. cbn in E. congruence.
  - intros r Hr Hn He.
    assert (A : isAvailable (enabledCulturesOf options) (userRegion options) r
                = true).
    { apply isAvailable_spec. split; [exact Hn|]. intro. contradiction. }
    split.
    + unfold availableRulesOf. apply filter_In. auto.
    + intro Act. apply active_rule_resolved. apply In_activeRulesOf. auto.
Qed.

Lemma isAvailable_opt_in_witness :
  exists themes,
    resolveThemesForDate sampleConfig (newDate 2025 9 22) noOptions = Normal themes /\
    forall t, In t themes -> ResolvedTheme.name t <> "diwali".
Proof.
  destruct (isAvailable_opt_in sampleConfig (newDate 2025 9 22) noOptions)
    as (themes & R & D & _).
  exists themes. split; [exact R|].
  refine (proj2 (D (ThemeRule.mk "diwali" (Range "10-20" "10-24") (Some false)
                      (Some ["india"]) None, CatCultural) _ _ _ _ _) _).
  - cbn. auto 6.
  - discriminate.
  - reflexivity.
  - intros [].
  - intros (region & u & _ & U & _). discriminate.
  - cbn. repeat constructor; cbn; intuition discriminate.
Defined.

(** C7 as stated fails on the rule named everyday.  With
    [enabled === false], no region and a name outside [enabledCultures]
    it is still in the result, as the fallback; and with [enabled] unset,
    as in the sample catalog, it is not a candidate. *)
Lemma fallback_ignores_enabled :
  let e := ThemeRule.mk "everyday" Always (Some false) None None in
  let config := mkConfig [] [] [] [e] in
  let date := newDate 2025 5 15 in
  let e' := ThemeRule.mk "everyday" Always None None None in
  (In (e, CatEveryday) (allRulesOf config) /\
   ThemeRule.enabled e = Some false /\
   ~ In (ThemeRule.name e) (enabledCulturesOf noOptions) /\
   ThemeRule.region e = None /\
   resolveThemesForDate config date noOptions
   = Normal [toResolved (e, CatEveryday)]) /\
  (In (e', CatEveryday) (allRulesOf sampleConfig) /\
   ThemeRule.enabled e' = None /\
   ~ In (e', CatEveryday) (availableRulesOf sampleConfig noOptions)).
Proof.
  cbv zeta. split.
  - split; [left; reflexivity|]. split; [reflexivity|].
    split; [intros []|]. split; [reflexivity|]. vm_compute. reflexivity.
  - split; [cbn; auto 7|]. split; [reflexivity|].
    unfold availableRulesOf. rewrite filter_In. intros [_ A].
    vm_compute in A. discriminate.
Qed.

(** ** Ranking *)

Lemma isDigit_not_dash (c : ascii) : isDigit c = true -> Ascii.eqb c "-" = false.
Proof.
  intro H. destruct (Ascii.eqb c "-") eqn:E; [|reflexivity].
  apply Ascii.eqb_eq in E. subst c. discriminate H.
Qed.

Lemma isDigit_value (c : ascii) :
  isDigit c = true -> exists v, digitValue c = Some v.
Proof.
  unfold isDigit. destruct (digitValue c) as [v|]; [|discriminate].
  intros _. exists v. reflexivity.
Qed.

(** A valid month-day string splits into two numbers. *)
Lemma validMonthDay_parts (s : string) :
  validMonthDay s = true ->
  exists m d, map Number (splitDash s) = [Fin m; Fin d].
Proof.
  destruct s as [|a [|b [|sep [|c [|d [|? ?]]]]]]; try discriminate.
  cbn [validMonthDay]. rewrite !andb_true_iff.
  intros [[[[Ha Hb] Hs] Hc] Hd].
  apply Ascii.eqb_eq in Hs. subst sep.
  cbn [splitDash].
  rewrite (isDigit_not_dash a Ha), (isDigit_not_dash b Hb),
    (isDigit_not_dash c Hc), (isDigit_not_dash d Hd).
  change (Ascii.eqb "-" "-") with true. cbv iota.
  destruct (isDigit_value a Ha) as (va & Ea), (isDigit_value b Hb) as (vb & Eb),
    (isDigit_value c Hc) as (vc & Ec), (isDigit_value d Hd) as (vd & Ed).
  cbn [map]. unfold Number. cbn [digitsValue].
  rewrite Ea, Eb, Ec, Ed. eexists. eexists. reflexivity.
Qed.

(** On validated rules the estimator returns a number of days or
    Infinity, never NaN. *)
Lemma getThemeDuration_isDuration (rule : DateRule) (year : Z) :
  validRule rule = true -> isDuration (getThemeDuration rule year).
Proof.
  destruct rule as [from to | | | |]; cbn [getThemeDuration]; try (intros _; exact I).
  cbn [validRule]. rewrite andb_true_iff. intros [Hf Ht].
  destruct (validMonthDay_parts from Hf) as (fm & fd & ->).
  destruct (validMonthDay_parts to Ht) as (tm & td & ->).
  cbn. exact I.
Qed.

Section SortExt.

Context {A : Type} (key key' : A -> JsNum).

Lemma insertKey_ext (x : A) (l : list A) :
  key x = key' x -> (forall y, In y l -> key y = key' y) ->
  insertKey key x l = insertKey key' x l.
Proof.
  intros Hx. induction l as [|y ys IH]; intro H; cbn; [reflexivity|].
  rewrite Hx, (H y) by (left; reflexivity).
  rewrite IH by (intros; apply H; right; assumption). reflexivity.
Qed.

(** The sort depends on the keys of the listed elements only. *)
Lemma sortKey_ext (l : list A) :
  (forall y, In y l -> key y = key' y) -> sortKey key l = sortKey key' l.
Proof.
  induction l as [|x xs IH]; intro H; cbn; [reflexivity|].
  rewrite IH by (intros; apply H; right; assumption).
  apply insertKey_ext; [apply H; left; reflexivity|].
  intros y Hy. apply H. right. apply (proj1 (In_sortKey key' y xs)). exact Hy.
Qed.

End SortExt.

(** With unique names the comparator ranks each match by the duration
    of its own rule. *)
Lemma keyOf_durationOf (config : ThemeRulesConfig) (date : Date)
  (options : ResolverOptions) (t : ResolvedTheme.t) :
  NoDup (map taggedName (allRulesOf config)) ->
  In t (matchingThemesOf config date options) ->
  keyOf (allRulesOf config) (getFullYear date) t = durationOf date t.
Proof.
  intros ND Ht.
  apply (proj1 (In_matchingThemesOf _ _ _ _)) in Ht.
  destruct Ht as (r & Hr & ->).
  apply (proj1 (In_activeRulesOf _ _ _ _)) in Hr. destruct Hr as (Hr & _).
  unfold keyOf, durationOf.
  change (ResolvedTheme.name (toResolved r)) with (taggedName r).
  rewrite (findByName_NoDup taggedName _ _ ND Hr). reflexivity.
Qed.

Lemma fallbackOf_short (config : ThemeRulesConfig) :
  fallbackOf config = [] \/ exists t, fallbackOf config = [t].
Proof.
  unfold fallbackOf. destruct (findByName _ _ _); [right | left]; eauto.
Qed.

(** The matches are those of the seasonal list, then those of the
    holidays list, then those of the cultural list, then those of the
    everyday list. *)
Lemma matchingThemesOf_catalog_order (config : ThemeRulesConfig) (date : Date)
  (options : ResolverOptions) :
  matchingThemesOf config date options =
  (matchesOfList CatSeasonal (seasonal config) date options
   ++ matchesOfList CatHolidays (holidays config) date options
   ++ matchesOfList CatCultural (cultural config) date options
   ++ matchesOfList CatEveryday (everyday config) date options)%list.
Proof.
  unfold matchingThemesOf, availableRulesOf, allRulesOf, matchesOfList.
  cbv zeta. rewrite !filter_app, !map_app. reflexivity.
Qed.

(** C1: when the names of the catalog are unique and its range rules
    are validated month-day strings, the result is in non-decreasing
    order of the duration of each entry's rule in the year of the date,
    and the entries of each duration keep their catalog order: the
    matches of the seasonal list, then those of the holidays list, then
    those of the cultural list, then those of the everyday list under
    another name, each list in its own order. *)
Theorem resolveThemesForDate_sorted (config : ThemeRulesConfig) (date : Date)
  (options : ResolverOptions) :
  NoDup (map taggedName (allRulesOf config)) ->
  Forall (fun r => validRule (ThemeRule.rule (fst r)) = true) (allRulesOf config) ->
  exists themes,
    resolveThemesForDate config date options = Normal themes /\
    StronglySorted
      (fun a b => JsNum_leb (durationOf date a) (durationOf date b) = true)
      themes /\
    (matchingThemesOf config date options = [] -> themes = fallbackOf config) /\
    (matchingThemesOf config date options <> [] ->
     forall k,
       filter (fun t => JsNum_eqb (durationOf date t) k) themes =
       filter (fun t => JsNum_eqb (durationOf date t) k)
              (matchesOfList CatSeasonal (seasonal config) date options
               ++ matchesOfList CatHolidays (holidays config) date options
               ++ matchesOfList CatCultural (cultural config) date options
               ++ matchesOfList CatEveryday (everyday config) date options)%list).
Proof.
  intros ND V. exists (resolvedThemes config date options).
  split; [apply resolveThemesForDate_returns|].
  rewrite <- matchingThemesOf_catalog_order.
  destruct (matchingThemesOf config date options) as [|t0 ts] eqn:M.
  - rewrite resolvedThemes_no_match by exact M.
    split; [|split; [reflexivity | intro N; contradiction]].
    destruct (fallbackOf_short config) as [-> | (t & ->)]; repeat constructor.
  - assert (S : resolvedThemes config date options =
                sortKey (durationOf date) (matchingThemesOf config date options)).
    { rewrite resolvedThemes_match by (rewrite M; discriminate).
      apply sortKey_ext. intros y Hy. apply (keyOf_durationOf config date options); assumption. }
    rewrite S. split; [|split; [discriminate|]].
    + apply (sortKey_sorted (durationOf date)).
      rewrite Forall_forall in V |- *. intros t Ht.
      apply (proj1 (In_matchingThemesOf _ _ _ _)) in Ht.
      destruct Ht as (r & Hr & ->).
      apply (proj1 (In_activeRulesOf _ _ _ _)) in Hr. destruct Hr as (Hr & _).
      apply getThemeDuration_isDuration. apply (V r Hr).
    + intros _ k. rewrite M. rewrite <- M.
      apply (sortKey_stable (durationOf date) k).
Qed.

Lemma resolveThemesForDate_sorted_witness :
  exists themes,
    resolveThemesForDate sampleConfig (newDate 2025 11 25) noOptions
    = Normal themes /\
    StronglySorted
      (fun a b => JsNum_leb (durationOf (newDate 2025 11 25) a)
                            (durationOf (newDate 2025 11 25) b) = true)
      themes /\
    (matchingThemesOf sampleConfig (newDate 2025 11 25) noOptions = [] ->
     themes = fallbackOf sampleConfig) /\
    (matchingThemesOf sampleConfig (newDate 2025 11 25) noOptions <> [] ->
     forall k,
       filter (fun t => JsNum_eqb (durationOf (newDate 2025 11 25) t) k) themes =
       filter (fun t => JsNum_eqb (durationOf (newDate 2025 11 25) t) k)
              (matchesOfList CatSeasonal (seasonal sampleConfig)
                 (newDate 2025 11 25) noOptions
               ++ matchesOfList CatHolidays (holidays sampleConfig)
                    (newDate 2025 11 25) noOptions
               ++ matchesOfList CatCultural (cultural sampleConfig)
                    (newDate 2025 11 25) noOptions
               ++ matchesOfList CatEveryday (everyday sampleConfig)
                    (newDate 2025 11 25) noOptions)%list).
Proof.
  apply (resolveThemesForDate_sorted sampleConfig (newDate 2025 11 25) noOptions).
  - cbn. repeat constructor; cbn; intuition discriminate.
  - cbn. repeat constructor.
Defined.

(** On Christmas Day 2025 the sample catalog matches winter, then
    christmas; the three-day rule is ranked before the ninety-day one. *)
Example sample_christmas_2025 :
  matchingThemesOf sampleConfig (newDate 2025 11 25) noOptions =
  [ResolvedTheme.mk "winter" CatSeasonal (Range "12-01" "02-28") None;
   ResolvedTheme.mk "christmas" CatSeasonal (Range "12-24" "12-26") None] /\
  resolveThemesForDate sampleConfig (newDate 2025 11 25) noOptions =
  Normal
    [ResolvedTheme.mk "christmas" CatSeasonal (Range "12-24" "12-26") None;
     ResolvedTheme.mk "winter" CatSeasonal (Range "12-01" "02-28") None] /\
  resolvePrimaryThemeForDate sampleConfig (newDate 2025 11 25) noOptions =
  Normal
    (Some (ResolvedTheme.mk "christmas" CatSeasonal (Range "12-24" "12-26") None)).
Proof. repeat split; vm_compute; reflexivity. Qed.

(** The hypothesis on names is needed: the comparator looks the rule up
    by name, so a second rule of the same name is ranked by the duration
    of the first.  Here the eleven-day rule comes last. *)
Example duplicate_names_break_ranking :
  let config :=
    mkConfig
      [ThemeRule.mk "x" (Range "01-01" "12-31") None None None;
       ThemeRule.mk "y" (Range "06-01" "06-30") None None None]
      [ThemeRule.mk "x" (Range "06-10" "06-20") None None None]
      [] [] in
  let date := newDate 2025 5 15 in
  let themes :=
    [ResolvedTheme.mk "y" CatSeasonal (Range "06-01" "06-30") None;
     ResolvedTheme.mk "x" CatSeasonal (Range "01-01" "12-31") None;
     ResolvedTheme.mk "x" CatHolidays (Range "06-10" "06-20") None] in
  resolveThemesForDate config date noOptions = Normal themes /\
  map (durationOf date) themes = [Fin 30; Fin 365; Fin 11].
Proof. split; vm_compute; reflexivity. Qed.
